(** * Comment extraction, sentence splitting, duplicate comparison and
      topic-subset export: a shallow embedding of [work_culture] and of the
      session logic of [app.py], with the properties of the specification.

    Python values are embedded as follows.
    - A [str] is a [string]; its characters are the code points below 256.
      On that range the regular-expression class [\d] is ['0'..'9'] and
      [str.isspace] holds of 9-13, 28-32, 133 and 160.
    - An exception is a value of [exn]; a function that may raise returns a
      [result].
    - A pandas [DataFrame] is a list of column labels and a list of rows, a
      row being the list of its cells in column order.  A cell is a string,
      an integer or the missing value [NaN].  Labels are unique, as
      [pd.read_csv] and the constructor make them, and a lookup takes the
      first position of a label.  Reading and writing files is left out: a
      function that reads a CSV file takes the frame read, one that writes a
      file returns the frame written.
    - The float returned by [count_duplicates] is given by its exact rational
      value; the three values the properties name (-1, 0 and 100) are floats
      and are computed without rounding. *)

From Stdlib Require Import String Ascii List Bool Arith ZArith QArith Lia.
Import ListNotations.

Open Scope string_scope.
Open Scope list_scope.

(** ** Exceptions and results *)

Inductive exn : Type :=
| ValueError (msg : string)
| KeyError (key : string)
| TypeError (msg : string)
| AttributeError (attr : string)
| InvalidStateError. (* named by the specification; the code never raises it *)

Inductive result (A : Type) : Type :=
| Ok (a : A)
| Raise (e : exn).

Arguments Ok {A} a.
Arguments Raise {A} e.

Definition bind {A B : Type} (r : result A) (k : A -> result B) : result B :=
  match r with
  | Ok a => k a
  | Raise e => Raise e
  end.

Notation "x <- r ;; k" := (bind r (fun x => k))
  (at level 61, r at next level, right associativity).

(** ** Python's [str] primitives *)

Definition nl : string := String "010"%char EmptyString.

Definition code (c : ascii) : nat := nat_of_ascii c.

(** [\d] on code points below 256. *)
Definition is_digit (c : ascii) : bool :=
  (48 <=? code c)%nat && (code c <=? 57)%nat.

(** [str.isspace] on code points below 256. *)
Definition is_space (c : ascii) : bool :=
  ((9 <=? code c)%nat && (code c <=? 13)%nat)
  || ((28 <=? code c)%nat && (code c <=? 32)%nat)
  || (code c =? 133)%nat
  || (code c =? 160)%nat.

Fixpoint lstrip (s : string) : string :=
  match s with
  | EmptyString => EmptyString
  | String c s' => if is_space c then lstrip s' else s
  end.

Fixpoint rstrip (s : string) : string :=
  match s with
  | EmptyString => EmptyString
  | String c s' =>
      match rstrip s' with
      | EmptyString => if is_space c then EmptyString else String c EmptyString
      | r => String c r
      end
  end.

(** [s.strip()] *)
Definition strip (s : string) : string := rstrip (lstrip s).

(** Puts a character in front of the first piece of a split. *)
Definition cons_head (c : ascii) (pieces : list string) : list string :=
  match pieces with
  | [] => [String c EmptyString]
  | p :: ps => String c p :: ps
  end.

(** [re.split] on a pattern that matches exactly the character [sep]:
    [re.split(r"\n", s)] and [re.split(r"\.", s)]. *)
Fixpoint re_split_char (sep : ascii) (s : string) : list string :=
  match s with
  | EmptyString => [EmptyString]
  | String c s' =>
      if Ascii.eqb c sep then EmptyString :: re_split_char sep s'
      else cons_head c (re_split_char sep s')
  end.

(** [s.split(". ", 1)]: at most one split, at the first occurrence. *)
Fixpoint split_dot_space_1 (s : string) : list string :=
  match s with
  | EmptyString => [EmptyString]
  | String c s' =>
      match s' with
      | String c' rest =>
          if Ascii.eqb c "."%char && Ascii.eqb c' " "%char
          then [EmptyString; rest]
          else cons_head c (split_dot_space_1 s')
      | EmptyString => [s]
      end
  end.

(** [l[-1]] on a list of strings that is never empty here. *)
Definition last_piece (l : list string) : string := last l EmptyString.

(** [s.endswith(suffix)] *)
Fixpoint endswith (s suffix : string) : bool :=
  if String.eqb s suffix then true
  else
    match s with
    | EmptyString => false
    | String _ s' => endswith s' suffix
    end.

(** ** The section marker [Comments: \(\d+\)] *)

Fixpoint drop_prefix (p s : string) : option string :=
  match p with
  | EmptyString => Some s
  | String a p' =>
      match s with
      | EmptyString => None
      | String b s' => if Ascii.eqb a b then drop_prefix p' s' else None
      end
  end.

(** Length of the longest run of digits at the head of [s], and what follows
    it: the greedy [\d+]. *)
Fixpoint span_digits (s : string) : nat * string :=
  match s with
  | EmptyString => (0%nat, EmptyString)
  | String c s' =>
      if is_digit c then let (n, r) := span_digits s' in (S n, r)
      else (0%nat, s)
  end.

(** [comments_match s] is the length of the match of the pattern at the head
    of [s] when there is one.  A closing parenthesis is no digit, so giving
    digits back never turns a failure into a match. *)
Definition comments_match (s : string) : option nat :=
  match drop_prefix "Comments: (" s with
  | None => None
  | Some after =>
      match span_digits after with
      | (O, _) => None
      | (S n, String c _) =>
          if Ascii.eqb c ")"%char then Some (11 + S n + 1)%nat else None
      | (S n, EmptyString) => None
      end
  end.

(** [re.split(comments_pattern, s)], scanning from the left; [skip] counts the
    characters of a match that are still to be passed over. *)
Fixpoint re_split_from (skip : nat) (s : string) : list string :=
  match s with
  | EmptyString => [EmptyString]
  | String c s' =>
      match skip with
      | S k => re_split_from k s'
      | O =>
          match comments_match s with
          | Some (S n) => EmptyString :: re_split_from n s'
          | _ => cons_head c (re_split_from 0 s')
          end
      end
  end.

Definition re_split_comments (s : string) : list string := re_split_from 0 s.

(** ** pandas frames *)

Inductive cell : Type :=
| CStr (s : string)
| CInt (z : Z)
| NaN.

(** Equality of two cells as [drop_duplicates] and [merge] see it (two missing
    values are the same key) and as the comparison with a scalar sees it. *)
Definition cell_eqb (a b : cell) : bool :=
  match a, b with
  | CStr s, CStr t => String.eqb s t
  | CInt x, CInt y => Z.eqb x y
  | NaN, NaN => true
  | _, _ => false
  end.

Definition isna (c : cell) : bool :=
  match c with
  | NaN => true
  | _ => false
  end.

Record DataFrame : Type := mkDataFrame {
  columns : list string;
  rows : list (list cell)
}.

(** [len(df)] *)
Definition len (df : DataFrame) : nat := length (rows df).

(** [label in df.columns] *)
Definition has_column (label : string) (df : DataFrame) : bool :=
  existsb (String.eqb label) (columns df).

(** Position of a label among the columns. *)
Fixpoint find_label (label : string) (cols : list string) : option nat :=
  match cols with
  | [] => None
  | c :: cols' =>
      if String.eqb label c then Some 0%nat
      else option_map S (find_label label cols')
  end.

Definition cell_at (i : nat) (r : list cell) : cell := nth i r NaN.

(** The cell of row [r] under [label]. *)
Definition row_get (cols : list string) (r : list cell) (label : string)
  : option cell :=
  match find_label label cols with
  | Some i => nth_error r i
  | None => None
  end.

(** [df[label]] *)
Definition getitem (df : DataFrame) (label : string) : result (list cell) :=
  match find_label label (columns df) with
  | Some i => Ok (map (cell_at i) (rows df))
  | None => Raise (KeyError label)
  end.

(** [pd.DataFrame(values, columns=[label])] *)
Definition frame_of_list (values : list cell) (label : string) : DataFrame :=
  {| columns := [label]; rows := map (fun v => [v]) values |}.

(** [df.replace(old, new)] on string scalars. *)
Definition replace (df : DataFrame) (old new : string) : DataFrame :=
  {| columns := columns df;
     rows := map (map (fun c => if cell_eqb c (CStr old) then CStr new else c))
                 (rows df) |}.

(** [series != scalar] *)
Definition ne_scalar (series : list cell) (scalar : string) : list bool :=
  map (fun c => negb (cell_eqb c (CStr scalar))) series.

(** Keeps the items of [l] whose flag in [mask] is set. *)
Fixpoint select {A : Type} (mask : list bool) (l : list A) : list A :=
  match mask, l with
  | b :: mask', x :: l' => if b then x :: select mask' l' else select mask' l'
  | _, _ => []
  end.

(** [df[mask]] and [df.loc[mask]] on a boolean series. *)
Definition select_rows (df : DataFrame) (mask : list bool) : DataFrame :=
  {| columns := columns df; rows := select mask (rows df) |}.

(** [df[df != scalar]]: a cell equal to the scalar becomes missing. *)
Definition where_ne (df : DataFrame) (scalar : string) : DataFrame :=
  {| columns := columns df;
     rows := map (map (fun c => if cell_eqb c (CStr scalar) then NaN else c))
                 (rows df) |}.

(** [df.dropna()]: drops the rows that hold a missing value. *)
Definition dropna (df : DataFrame) : DataFrame :=
  {| columns := columns df;
     rows := filter (fun r => negb (existsb isna r)) (rows df) |}.

(** [df.dropna(subset=[label])] *)
Definition dropna_subset (df : DataFrame) (label : string) : result DataFrame :=
  match find_label label (columns df) with
  | Some i =>
      Ok {| columns := columns df;
            rows := filter (fun r => negb (isna (cell_at i r))) (rows df) |}
  | None => Raise (KeyError label)
  end.

(** [series.str.strip()]: a cell that is no string becomes missing. *)
Definition str_strip (series : list cell) : list cell :=
  map (fun c => match c with CStr s => CStr (strip s) | _ => NaN end) series.

(** [df[label] = values] on a frame whose only column is [label]. *)
Definition set_single_column (df : DataFrame) (values : list cell) : DataFrame :=
  {| columns := columns df; rows := map (fun v => [v]) values |}.

(** [series.apply(f)] for an [f] that accepts strings only, as [re.split]
    does. *)
Fixpoint apply_str {B : Type} (f : string -> B) (series : list cell)
  : result (list B) :=
  match series with
  | [] => Ok []
  | CStr s :: series' =>
      ys <- apply_str f series' ;;
      Ok (f s :: ys)
  | _ :: _ => Raise (TypeError "expected string or bytes-like object")
  end.

(** The exploded column of [df.explode(label)]: one cell per list item, and a
    missing value for an empty list. *)
Definition explode (lists : list (list string)) : list cell :=
  flat_map (fun l => match l with [] => [NaN] | _ => map CStr l end) lists.

(** [df.drop_duplicates(subset=[label])]: the first row of each key stays. *)
Fixpoint drop_dup_rows (i : nat) (seen : list cell) (rs : list (list cell))
  : list (list cell) :=
  match rs with
  | [] => []
  | r :: rs' =>
      if existsb (cell_eqb (cell_at i r)) seen then drop_dup_rows i seen rs'
      else r :: drop_dup_rows i (cell_at i r :: seen) rs'
  end.

Definition drop_duplicates (df : DataFrame) (label : string) : result DataFrame :=
  match find_label label (columns df) with
  | Some i => Ok {| columns := columns df; rows := drop_dup_rows i [] (rows df) |}
  | None => Raise (KeyError label)
  end.

(** Removes the item at position [i]. *)
Fixpoint remove_at {A : Type} (i : nat) (l : list A) : list A :=
  match l, i with
  | [], _ => []
  | _ :: l', O => l'
  | x :: l', S j => x :: remove_at j l'
  end.

Definition is_str (c : cell) : bool :=
  match c with
  | CStr _ => true
  | _ => false
  end.

(** The dtype of a key column as [pd.merge] sees it.  A column that
    [pd.read_csv] returns holds strings and missing values, and is an
    [object] column that pandas infers as string-like, or it holds integers
    and missing values only, and is numeric. *)
Definition string_like (keys : list cell) : bool := existsb is_str keys.

(** The check of [pd.merge] on the two key columns: it is passed over when
    one of them is empty; otherwise a string-like column is not merged with
    a numeric one. *)
Definition merge_keys_compatible (lk rk : list cell) : bool :=
  match lk, rk with
  | [], _ | _, [] => true
  | _ :: _, _ :: _ => Bool.eqb (string_like lk) (string_like rk)
  end.

(** The [ValueError] of [pd.merge] on key columns of a string-like and of a
    numeric dtype; the message of pandas names the two dtypes in between. *)
Definition merge_dtype_error : exn :=
  ValueError
    "You are trying to merge on columns of a string and of a numeric dtype. If you wish to proceed you should use pd.concat".

(** [pd.merge(left, right, on=label, how="inner")]: the check of the key
    columns, then every left row, in order, with every right row of the same
    key; a label the two sides share apart from the key takes the suffix
    [_x] on the left and [_y] on the right.  The suffixes are taken not to
    make two labels of one side equal, which pandas warns about before its
    version 2 and refuses from then on. *)
Definition merge_inner (left right : DataFrame) (label : string)
  : result DataFrame :=
  match find_label label (columns left), find_label label (columns right) with
  | Some i, Some j =>
      if merge_keys_compatible (map (cell_at i) (rows left))
                               (map (cell_at j) (rows right))
      then
        let others := remove_at j (columns right) in
        Ok {| columns :=
                map (fun c => if negb (String.eqb c label)
                                 && existsb (String.eqb c) others
                              then (c ++ "_x")%string else c) (columns left)
                ++ map (fun c => if existsb (String.eqb c) (columns left)
                                 then (c ++ "_y")%string else c) others;
              rows :=
                flat_map (fun l =>
                  map (fun r => l ++ remove_at j r)
                      (filter (fun r => cell_eqb (cell_at i l) (cell_at j r))
                              (rows right)))
                  (rows left) |}
      else Raise merge_dtype_error
  | _, _ => Raise (KeyError label)
  end.

(** [series.isin(values)] for a list of integers. *)
Definition isin (series : list cell) (values : list Z) : list bool :=
  map (fun c => match c with
                | CInt z => existsb (Z.eqb z) values
                | _ => false
                end) series.

(** [df.drop(columns=label)] *)
Definition drop_columns (df : DataFrame) (label : string) : result DataFrame :=
  if has_column label df then
    let mask := map (fun c => negb (String.eqb c label)) (columns df) in
    Ok {| columns := select mask (columns df);
          rows := map (select mask) (rows df) |}
  else Raise (KeyError label).

(** ** [work_culture/docx_to_csv.py] *)

Module docx_to_csv.

Definition notice : string :=
  "Restricted Information - Not for Further Distribution".

(** [read_docx], from the paragraphs of the opened document. *)
Definition read_docx (paragraphs : list string) : string :=
  fold_left (fun full_text text => (full_text ++ text ++ nl)%string)
            paragraphs EmptyString.

Definition nan_to_nocomment (text : string) : string :=
  if String.eqb text "nan" then "No comment" else text.

(** [split_string[1].strip()] *)
Definition data_raw (input_string : string) : string :=
  strip (nth 1 (re_split_comments input_string) EmptyString).

(** The candidate lines: [re.split(newline_pattern, data_raw)]. *)
Definition comment_list_raw (input_string : string) : list string :=
  re_split_char "010"%char (data_raw input_string).

(** The test of the list comprehension of [string_to_df]. *)
Definition kept (comment : string) : bool :=
  negb (String.eqb comment EmptyString) && negb (String.eqb comment notice).

(** [comment.split(". ", 1)[-1].strip()] *)
Definition strip_numbering (comment : string) : string :=
  strip (last_piece (split_dot_space_1 comment)).

Definition comment_list_pre (lines : list string) : list string :=
  map strip_numbering (filter kept lines).

(** The frame built from [comment_list_pre]: construction, [replace] and the
    removal of the empty comments. *)
Definition comments_frame (pre : list string) : result DataFrame :=
  let df := frame_of_list (map CStr pre) "comment" in
  let df := replace df "nan" "No comment" in
  comment <- getitem df "comment" ;;
  Ok (select_rows df (ne_scalar comment EmptyString)).

Definition string_to_df (input_string : string) : result DataFrame :=
  let split_string := re_split_comments input_string in
  if (length split_string =? 1)%nat
  then Raise (ValueError "The Comments section was not found")
  else comments_frame (comment_list_pre (comment_list_raw input_string)).

(** [docx_to_csv] up to the two file accesses: the frame that is written. *)
Definition docx_to_csv (paragraphs : list string) : result DataFrame :=
  string_to_df (read_docx paragraphs).

End docx_to_csv.

(** ** [work_culture/utils.py] *)

Module utils.

Definition split_sentences_helper (para : string) : list string :=
  re_split_char "."%char para.

(** [break_into_sentences] on the frame [pd.read_csv] returns. *)
Definition break_into_sentences (df : DataFrame) : result DataFrame :=
  comment <- getitem df "comment" ;;
  sentences <- apply_str split_sentences_helper comment ;;
  let new_series := explode sentences in
  let new_df := frame_of_list new_series "comment" in
  new_df <- dropna_subset new_df "comment" ;;
  let new_df := dropna (where_ne new_df " ") in
  comment <- getitem new_df "comment" ;;
  Ok (set_single_column new_df (str_strip comment)).

(** [(duplicates / smaller_len) * 100] *)
Definition percentage (duplicates smaller_len : nat) : Q :=
  (inject_Z (Z.of_nat duplicates) / inject_Z (Z.of_nat smaller_len)) * 100.

(** [count_duplicates] on the two frames [pd.read_csv] returns, which are
    never [None]. *)
Definition count_duplicates (df1 df2 : DataFrame) : result Q :=
  if negb (has_column "comment" df1) || negb (has_column "comment" df2)
  then Ok (-1)%Q
  else
    unique_df1 <- drop_duplicates df1 "comment" ;;
    unique_df2 <- drop_duplicates df2 "comment" ;;
    merged <- merge_inner unique_df1 unique_df2 "comment" ;;
    let duplicates := len merged in
    let len1 := len unique_df1 in
    let len2 := len unique_df2 in
    let smaller_len := Nat.min len1 len2 in
    if (smaller_len =? 0)%nat then Ok 0%Q
    else Ok (percentage duplicates smaller_len).

(** [topic_aggregation] up to the file access: the frame that is written. *)
Definition topic_aggregation (selected_topics : list Z) (df : DataFrame)
  : result DataFrame :=
  topics <- getitem df "topics" ;;
  let df_aggregated := select_rows df (isin topics selected_topics) in
  drop_columns df_aggregated "topics".

End utils.

(** ** The session of [app.py] *)

Module app.

(** The pipeline of [work_culture.model], by the one argument [App] builds it
    from. *)
Record TopicModelingPipeline : Type := { nr_topics : Z }.

Inductive button_state : Type := normal | disabled.

(** The attributes of [App] that the operations on the model read and write.
    [df] is [None] until the attribute is first assigned.  [training_threads]
    counts the threads [_run_model] started that have not finished. *)
Record App : Type := mkApp {
  model_status_var : string;
  model : option TopicModelingPipeline;
  df : option DataFrame;
  detailed_info_button : button_state;
  hierarchy_button : button_state;
  barchart_button : button_state;
  training_threads : nat
}.

Definition _update_button_states (self : App) : App :=
  let state :=
    if String.eqb (model_status_var self) "Model training done."
    then normal else disabled in
  {| model_status_var := model_status_var self;
     model := model self;
     df := df self;
     detailed_info_button := state;
     hierarchy_button := state;
     barchart_button := state;
     training_threads := training_threads self |}.

(** [__init__]: [_init_vars], the widgets with Tk's default state, then
    [_update_button_states]. *)
Definition init : App :=
  _update_button_states
    {| model_status_var := "Model not started";
       model := None;
       df := None;
       detailed_info_button := normal;
       hierarchy_button := normal;
       barchart_button := normal;
       training_threads := 0 |}.

Definition _run_model (self : App) : App :=
  {| model_status_var := "Model is training...";
     model := model self;
     df := df self;
     detailed_info_button := detailed_info_button self;
     hierarchy_button := hierarchy_button self;
     barchart_button := barchart_button self;
     training_threads := S (training_threads self) |}.

(** [_is_threadsafe] returns [True]: the status is set at once. *)
Definition _update_model_status (message : string) (self : App) : App :=
  _update_button_states
    {| model_status_var := message;
       model := model self;
       df := df self;
       detailed_info_button := detailed_info_button self;
       hierarchy_button := hierarchy_button self;
       barchart_button := barchart_button self;
       training_threads := training_threads self |}.

(** How the body of the [try] of [_start_model_training] ends: an exception
    before [self.model] is assigned, an exception of [fit_model], or the
    labelled frame. *)
Inductive training : Type :=
| raised_early
| raised_in_fit (m : TopicModelingPipeline)
| fitted (m : TopicModelingPipeline) (labelled : DataFrame).

Definition _start_model_training (t : training) (self : App) : App :=
  let self :=
    {| model_status_var := model_status_var self;
       model := match t with
                | raised_early => model self
                | raised_in_fit m | fitted m _ => Some m
                end;
       df := match t with
             | fitted _ labelled => Some labelled
             | _ => df self
             end;
       detailed_info_button := detailed_info_button self;
       hierarchy_button := hierarchy_button self;
       barchart_button := barchart_button self;
       training_threads := pred (training_threads self) |} in
  match t with
  | fitted _ _ => _update_model_status "Model training done." self
  | _ => _update_model_status "Model training failed." self
  end.

Inductive view : Type := detailed_info | hierarchy | barchart.

(** What an operation does: nothing because its button is disabled, a call
    into the model, an error box for a caught exception, a written subset,
    or an exception that leaves the callback. *)
Inductive outcome : Type :=
| not_invoked
| called (v : view) (m : TopicModelingPipeline)
| error_box
| saved (subset : DataFrame)
| raised (e : exn).

(** [_detailed_info_dataframe], [_hierarchy_reduction] and [_bar_chart]: the
    call into [self.model] inside [try]. *)
Definition view_command (v : view) (self : App) : outcome :=
  match model self with
  | Some m => called v m
  | None => error_box
  end.

Definition button (v : view) (self : App) : button_state :=
  match v with
  | detailed_info => detailed_info_button self
  | hierarchy => hierarchy_button self
  | barchart => barchart_button self
  end.

(** A click on the button of a view: Tk calls the command of a button only
    when the button is not disabled. *)
Definition click (v : view) (self : App) : outcome :=
  match button v self with
  | normal => view_command v self
  | disabled => not_invoked
  end.

(** [_csv_subset]; [selected_topics] is what the entry text parses to, [None]
    when a token is no integer.  Its button is never disabled. *)
Definition _csv_subset (selected_topics : option (list Z)) (self : App)
  : outcome :=
  match selected_topics with
  | None => raised (ValueError "invalid literal for int() with base 10")
  | Some selected =>
      match df self with
      | None => raised (AttributeError "df")
      | Some labelled =>
          match utils.topic_aggregation selected labelled with
          | Ok subset => saved subset
          | Raise e => raised e
          end
      end
  end.

(** The states of a session: [App()] and what the button "Train model" and
    the end of a training thread make of them. *)
Inductive reachable : App -> Prop :=
| reach_init : reachable init
| reach_run_model (self : App) :
    reachable self -> reachable (_run_model self)
| reach_training_end (t : training) (self : App) :
    reachable self -> (0 < training_threads self)%nat ->
    reachable (_start_model_training t self).

Inductive phase : Type := Idle | Training | Ready | Failed.

Definition phase_of (self : App) : option phase :=
  let status := model_status_var self in
  if String.eqb status "Model not started" then Some Idle
  else if String.eqb status "Model is training..." then Some Training
  else if String.eqb status "Model training done." then Some Ready
  else if String.eqb status "Model training failed." then Some Failed
  else None.

(** [_update_file_options]; [listing] is what [os.listdir(self.data_path)]
    returns or raises. *)
Definition _update_file_options (listing : result (list string))
  (type : string) : list string :=
  match listing with
  | Ok names =>
      let files := filter (fun f => endswith f ("." ++ type)%string) names in
      match files with
      | [] => ["No files found"%string]
      | _ => files
      end
  | Raise _ => ["No files found"%string]
  end.

End app.

(** ** Notions the properties are stated with *)

(** Every character of [ds] is a digit. *)
Fixpoint all_digits (ds : string) : bool :=
  match ds with
  | EmptyString => true
  | String c ds' => is_digit c && all_digits ds'
  end.

(** The text holds a section marker: "Comments: (", one or more digits and
    ")". *)
Definition has_marker (s : string) : Prop :=
  exists pre ds post,
    s = (pre ++ "Comments: (" ++ ds ++ ")" ++ post)%string
    /\ ds <> EmptyString /\ all_digits ds = true.

(** The pattern matches at some position of [s]. *)
Fixpoint marker_anywhere (s : string) : bool :=
  match comments_match s with
  | Some _ => true
  | None =>
      match s with
      | EmptyString => false
      | String _ s' => marker_anywhere s'
      end
  end.

(** The cells of the column [comment], the records of a comment table. *)
Definition records (df : DataFrame) : list cell :=
  map (cell_at 0) (rows df).

(** The comments a frame is built from, after the replacement of "nan" and
    the removal of the empty ones. *)
Definition cleaned (pre : list string) : list string :=
  filter (fun s => negb (String.eqb s EmptyString))
         (map docx_to_csv.nan_to_nocomment pre).

(** The input of the scenario of the specification. *)
Definition scenario_text : string :=
  ("Comments: (2)" ++ nl ++ "1. Great place to work." ++ nl ++ "2. nan" ++ nl
   ++ docx_to_csv.notice ++ nl)%string.

(** An export in which a respondent's numbered comment is the text of the
    distribution notice. *)
Definition quoted_notice_text : string :=
  ("Comments: (1)" ++ nl ++ "1. " ++ docx_to_csv.notice ++ nl)%string.

(** The keys [drop_duplicates] keeps, in order: the first occurrence of each
    value that is not in [seen]. *)
Fixpoint first_occurrences (seen keys : list cell) : list cell :=
  match keys with
  | [] => []
  | k :: keys' =>
      if existsb (cell_eqb k) seen then first_occurrences seen keys'
      else k :: first_occurrences (k :: seen) keys'
  end.

(** How many pairs of a left and a right key are equal: the number of rows
    of an inner join on these keys. *)
Fixpoint matching_pairs (left right : list cell) : nat :=
  match left with
  | [] => 0%nat
  | k :: left' =>
      (length (filter (cell_eqb k) right) + matching_pairs left' right)%nat
  end.

(** The row belongs to the subset: its cell under [topics] is one of the
    selected integers. *)
Definition topic_selected (cols : list string) (selected : list Z)
  (r : list cell) : bool :=
  match row_get cols r "topics" with
  | Some (CInt z) => if in_dec Z.eq_dec z selected then true else false
  | _ => false
  end.

(** The labelled table of the export scenario: five rows with the topics
    1, 2, 3, 1 and 2. *)
Definition labelled_table : DataFrame :=
  {| columns := ["comment"; "topics"];
     rows := [[CStr "a"; CInt 1]; [CStr "b"; CInt 2]; [CStr "c"; CInt 3];
              [CStr "d"; CInt 1]; [CStr "e"; CInt 2]] |}.

(** A session in which a model was trained and "Train model" was clicked
    again: the second training is under way. *)
Definition retraining_session : app.App :=
  app._run_model
    (app._start_model_training
       (app.fitted {| app.nr_topics := 3 |} labelled_table)
       (app._run_model app.init)).

(** The two comment tables of the comparison scenario, and tables with the
    same comments next to other columns. *)
Definition table_abc : DataFrame :=
  {| columns := ["comment"]; rows := [[CStr "a"]; [CStr "b"]; [CStr "c"]] |}.

Definition table_bcde : DataFrame :=
  {| columns := ["comment"];
     rows := [[CStr "b"]; [CStr "c"]; [CStr "d"]; [CStr "e"]] |}.



Definition table_without_comment : DataFrame :=
  {| columns := ["text"]; rows := [[CStr "a"]] |}.

Definition table_empty : DataFrame :=
  {| columns := ["comment"]; rows := [] |}.

(** The character [c] does not occur in [s]. *)
Fixpoint free_of (c : ascii) (s : string) : bool :=
  match s with
  | EmptyString => true
  | String a s' => negb (Ascii.eqb a c) && free_of c s'
  end.

(** A section marker with the digits [ds]. *)
Definition marker (ds : string) : string :=
  ("Comments: (" ++ ds ++ ")")%string.

(** * Properties *)

(** ** The section marker *)

Section Marker.

Local Open Scope nat_scope.
Local Open Scope string_scope.

#[local] Arguments comments_match : simpl never.

Lemma drop_prefix_sound (p s r : string) :
  drop_prefix p s = Some r -> s = p ++ r.
Proof.
  revert s. induction p as [|a p IH]; intros s H; simpl in *.
  - now inversion H.
  - destruct s as [|b s]; [discriminate|].
    destruct (Ascii.eqb a b) eqn:E; [|discriminate].
    apply Ascii.eqb_eq in E. subst b. now rewrite (IH s H).
Qed.

Lemma drop_prefix_complete (p r : string) : drop_prefix p (p ++ r) = Some r.
Proof.
  induction p as [|a p IH]; simpl; [reflexivity|].
  now rewrite Ascii.eqb_refl.
Qed.

Lemma span_digits_sound (s : string) :
  exists ds, s = ds ++ snd (span_digits s)
             /\ all_digits ds = true
             /\ String.length ds = fst (span_digits s).
Proof.
  induction s as [|c s (ds & Hs & Hd & Hl)]; simpl.
  - now exists "".
  - destruct (is_digit c) eqn:E.
    + destruct (span_digits s) as [n r]; simpl in *.
      exists (String c ds). simpl. rewrite E, Hd, Hl. now rewrite <- Hs.
    + now exists "".
Qed.

Lemma span_digits_complete (ds post : string) :
  all_digits ds = true ->
  span_digits (ds ++ String ")" post) = (String.length ds, String ")" post).
Proof.
  induction ds as [|c ds IH]; simpl; intros H.
  - reflexivity.
  - apply andb_true_iff in H as [Hc Hd]. now rewrite Hc, (IH Hd).
Qed.

Lemma comments_match_sound (s : string) (n : nat) :
  comments_match s = Some n ->
  exists ds post,
    s = "Comments: (" ++ ds ++ ")" ++ post
    /\ ds <> "" /\ all_digits ds = true /\ n = 12 + String.length ds.
Proof.
  unfold comments_match. intros H.
  destruct (drop_prefix "Comments: (" s) as [after|] eqn:P; [|discriminate].
  apply drop_prefix_sound in P.
  destruct (span_digits_sound after) as (ds & Ha & Hd & Hl).
  destruct (span_digits after) as [[|k] r]; [discriminate|]. simpl in *.
  destruct r as [|c post]; [discriminate|].
  destruct (Ascii.eqb c ")") eqn:E; [|discriminate].
  apply Ascii.eqb_eq in E. subst c. inversion H; subst n.
  exists ds, post. repeat split.
  - now rewrite P, Ha.
  - intros ->. discriminate.
  - exact Hd.
  - lia.
Qed.

Lemma comments_match_complete (ds post : string) :
  ds <> "" -> all_digits ds = true ->
  comments_match ("Comments: (" ++ ds ++ ")" ++ post)
  = Some (12 + String.length ds).
Proof.
  intros Hne Hd. unfold comments_match.
  rewrite drop_prefix_complete.
  change (")" ++ post) with (String ")" post).
  rewrite (span_digits_complete ds post Hd).
  destruct ds as [|c ds]; [contradiction|]. simpl String.length.
  rewrite Ascii.eqb_refl. f_equal. lia.
Qed.

Lemma marker_anywhere_here (s : string) (n : nat) :
  comments_match s = Some n -> marker_anywhere s = true.
Proof.
  intros H. destruct s as [|c s].
  - vm_compute in H. discriminate.
  - simpl. now rewrite H.
Qed.

Lemma marker_anywhere_has_marker (s : string) :
  marker_anywhere s = true <-> has_marker s.
Proof.
  split.
  - induction s as [|c s IH]; simpl.
    + discriminate.
    + destruct (comments_match (String c s)) eqn:E.
      * intros _. apply comments_match_sound in E as (ds & post & H & Hn & Hd & _).
        exists "", ds, post. simpl. now repeat split.
      * intros H. destruct (IH H) as (pre & ds & post & Hs & Hn & Hd).
        exists (String c pre), ds, post. simpl. rewrite Hs. now repeat split.
  - intros (pre & ds & post & -> & Hn & Hd).
    induction pre as [|c pre IH].
    + apply (marker_anywhere_here _ (12 + String.length ds)).
      now apply comments_match_complete.
    + change (marker_anywhere
                (String c (pre ++ "Comments: (" ++ ds ++ ")" ++ post)) = true).
      simpl marker_anywhere.
      destruct (comments_match _); [reflexivity | exact IH].
Qed.

Lemma has_marker_false (s : string) :
  marker_anywhere s = false -> ~ has_marker s.
Proof.
  intros H M. apply marker_anywhere_has_marker in M. congruence.
Qed.

Lemma re_split_from_not_nil (k : nat) (s : string) : re_split_from k s <> [].
Proof.
  revert k. induction s as [|c s IH]; intros k; simpl; [discriminate|].
  destruct k as [|k]; [|apply IH].
  destruct (comments_match (String c s)) as [[|n]|];
    try discriminate;
    (specialize (IH 0%nat); destruct (re_split_from 0 s); [contradiction|discriminate]).
Qed.

Lemma length_cons_head (c : ascii) (l : list string) :
  l <> [] -> length (cons_head c l) = length l.
Proof. destruct l; [contradiction|reflexivity]. Qed.

(** Without a match the split has one piece, the text itself; with a match
    it has more. *)
Lemma re_split_no_match (s : string) :
  marker_anywhere s = false -> re_split_comments s = [s].
Proof.
  unfold re_split_comments.
  induction s as [|c s IH]; simpl; [reflexivity|].
  destruct (comments_match (String c s)); [discriminate|].
  intros H. now rewrite (IH H).
Qed.

Lemma re_split_match (s : string) :
  marker_anywhere s = true -> (2 <= length (re_split_comments s))%nat.
Proof.
  unfold re_split_comments.
  induction s as [|c s IH]; simpl.
  - discriminate.
  - destruct (comments_match (String c s)) as [[|n]|] eqn:E.
    + apply comments_match_sound in E as (ds & post & _ & _ & _ & H). lia.
    + intros _. simpl.
      pose proof (re_split_from_not_nil n s).
      destruct (re_split_from n s); [contradiction|simpl; lia].
    + intros H. rewrite length_cons_head by apply re_split_from_not_nil.
      now apply IH.
Qed.

End Marker.

(** ** [string_to_df] *)

Section StringToDf.

Import docx_to_csv.

Local Open Scope nat_scope.

Lemma records_frame_of_list (values : list cell) (label : string) :
  records (frame_of_list values label) = values.
Proof.
  unfold records, frame_of_list; simpl.
  induction values as [|v values IH]; simpl; [reflexivity|now rewrite IH].
Qed.

(** [replace] and the mask on the empty string do to the frame what
    [nan_to_nocomment] and a filter do to the list it is built from. *)
Lemma comments_frame_cleaned (pre : list string) :
  comments_frame pre = Ok (frame_of_list (map CStr (cleaned pre)) "comment").
Proof.
  unfold comments_frame, getitem, select_rows, frame_of_list, cleaned; simpl.
  do 2 f_equal.
  induction pre as [|s pre IH]; [reflexivity|].
  destruct (String.eqb_spec s "nan") as [->|N].
  - simpl. now rewrite IH.
  - apply String.eqb_neq in N. unfold nan_to_nocomment in *.
    simpl. rewrite N. simpl.
    destruct (String.eqb s "") eqn:E'; simpl; now rewrite IH.
Qed.

Lemma cleaned_app (a b : list string) : cleaned (a ++ b) = cleaned a ++ cleaned b.
Proof. unfold cleaned. now rewrite map_app, filter_app. Qed.

Lemma cleaned_not_nan (pre : list string) : ~ In "nan"%string (cleaned pre).
Proof.
  unfold cleaned. intros H. apply filter_In in H as [H _].
  apply in_map_iff in H as (s & Hs & _). unfold nan_to_nocomment in Hs.
  destruct (String.eqb s "nan") eqn:E; [discriminate|].
  apply String.eqb_neq in E. congruence.
Qed.

Lemma cleaned_not_empty (pre : list string) : ~ In EmptyString (cleaned pre).
Proof.
  unfold cleaned. intros H. apply filter_In in H as [_ H]. discriminate.
Qed.

Lemma kept_iff (line : string) :
  kept line = true <-> line <> EmptyString /\ line <> notice.
Proof.
  unfold kept. rewrite andb_true_iff, !negb_true_iff, !String.eqb_neq. tauto.
Qed.

Lemma strip_numbering_nan_kept (line : string) :
  strip_numbering line = "nan"%string -> kept line = true.
Proof.
  intros H. apply kept_iff. split; intros ->; vm_compute in H; discriminate.
Qed.

(** With a marker the parse returns a frame, without one it raises. *)
Lemma string_to_df_marker (input : string) :
  marker_anywhere input = true ->
  string_to_df input
  = Ok (frame_of_list
          (map CStr (cleaned (comment_list_pre (comment_list_raw input))))
          "comment").
Proof.
  intros H. unfold string_to_df.
  pose proof (re_split_match input H) as L.
  destruct (Nat.eqb_spec (length (re_split_comments input)) 1); [lia|].
  apply comments_frame_cleaned.
Qed.

Lemma string_to_df_no_marker (input : string) :
  marker_anywhere input = false ->
  string_to_df input = Raise (ValueError "The Comments section was not found").
Proof.
  intros H. unfold string_to_df. now rewrite (re_split_no_match input H).
Qed.

Lemma string_to_df_ok_inv (input : string) (df : DataFrame) :
  string_to_df input = Ok df ->
  df = frame_of_list
         (map CStr (cleaned (comment_list_pre (comment_list_raw input))))
         "comment".
Proof.
  intros H. destruct (marker_anywhere input) eqn:M.
  - rewrite (string_to_df_marker input M) in H. now inversion H.
  - rewrite (string_to_df_no_marker input M) in H. discriminate.
Qed.

Lemma comment_list_pre_app (a b : list string) :
  comment_list_pre (a ++ b) = comment_list_pre a ++ comment_list_pre b.
Proof. unfold comment_list_pre. now rewrite filter_app, map_app. Qed.

Lemma filter_kept_without_notice (lines : list string) :
  filter kept (filter (fun l => negb (String.eqb l notice)) lines)
  = filter kept lines.
Proof.
  induction lines as [|l lines IH]; simpl; [reflexivity|].
  unfold kept at 2.
  destruct (String.eqb l notice) eqn:E; simpl.
  - rewrite andb_false_r. exact IH.
  - unfold kept at 1. rewrite E, IH. reflexivity.
Qed.

End StringToDf.

(** ** [count_duplicates] *)

Section CountDuplicates.

Import utils.

Local Open Scope nat_scope.

Lemma cell_eqb_eq (a b : cell) : cell_eqb a b = true <-> a = b.
Proof.
  destruct a, b; simpl; split; intros H; try discriminate; try reflexivity.
  - apply String.eqb_eq in H. now subst.
  - inversion H. apply String.eqb_refl.
  - apply Z.eqb_eq in H. now subst.
  - inversion H. apply Z.eqb_refl.
Qed.

Lemma cell_eqb_refl (a : cell) : cell_eqb a a = true.
Proof. now apply cell_eqb_eq. Qed.

Lemma cell_eqb_sym (a b : cell) : cell_eqb a b = cell_eqb b a.
Proof.
  destruct (cell_eqb a b) eqn:E.
  - apply cell_eqb_eq in E. subst. symmetry. apply cell_eqb_refl.
  - destruct (cell_eqb b a) eqn:E'; [|reflexivity].
    apply cell_eqb_eq in E'. subst. now rewrite cell_eqb_refl in E.
Qed.

Lemma existsb_cell_eqb (k : cell) (l : list cell) :
  existsb (cell_eqb k) l = true <-> In k l.
Proof.
  rewrite existsb_exists. split.
  - intros (x & Hx & E). apply cell_eqb_eq in E. now subst.
  - intros H. exists k. split; [exact H|apply cell_eqb_refl].
Qed.

Lemma has_column_find_label (label : string) (df : DataFrame) :
  has_column label df = true <-> exists i, find_label label (columns df) = Some i.
Proof.
  unfold has_column. induction (columns df) as [|c cols IH]; simpl.
  - split; [discriminate|intros [i H]; discriminate].
  - destruct (String.eqb label c); simpl.
    + split; [now exists 0|reflexivity].
    + rewrite IH. split; intros [i H].
      * exists (S i). now rewrite H.
      * destruct (find_label label cols) as [j|]; [now exists j|discriminate].
Qed.

Lemma has_column_false (label : string) (df : DataFrame) :
  has_column label df = false <-> find_label label (columns df) = None.
Proof.
  split; intros H.
  - destruct (find_label label (columns df)) as [i|] eqn:E; [|reflexivity].
    assert (has_column label df = true) by (apply has_column_find_label; eauto).
    congruence.
  - destruct (has_column label df) eqn:E; [|reflexivity].
    apply has_column_find_label in E as [i E]. congruence.
Qed.

(** The keys of the rows [drop_duplicates] keeps depend on the key column
    alone. *)
Lemma drop_dup_rows_keys (i : nat) (seen : list cell) (rs : list (list cell)) :
  map (cell_at i) (drop_dup_rows i seen rs)
  = first_occurrences seen (map (cell_at i) rs).
Proof.
  revert seen. induction rs as [|r rs IH]; intros seen; simpl; [reflexivity|].
  destruct (existsb (cell_eqb (cell_at i r)) seen); simpl; now rewrite IH.
Qed.

(** The rows of the inner join are counted by the keys of the two sides. *)
Lemma merge_rows_length (i j : nat) (left right : list (list cell)) :
  length
    (flat_map
       (fun l =>
          map (fun r => l ++ remove_at j r)
              (filter (fun r => cell_eqb (cell_at i l) (cell_at j r)) right))
       left)
  = matching_pairs (map (cell_at i) left) (map (cell_at j) right).
Proof.
  induction left as [|l left IH]; simpl; [reflexivity|].
  rewrite length_app, length_map, IH. f_equal.
  clear. induction right as [|r right IH]; simpl; [reflexivity|].
  destruct (cell_eqb (cell_at i l) (cell_at j r)); simpl; now rewrite IH.
Qed.


Lemma matching_pairs_cons_r (left right : list cell) (k : cell) :
  matching_pairs left (k :: right)
  = length (filter (cell_eqb k) left) + matching_pairs left right.
Proof.
  induction left as [|x left IH]; simpl; [reflexivity|].
  rewrite IH, (cell_eqb_sym k x).
  destruct (cell_eqb x k); simpl; lia.
Qed.


Lemma first_occurrences_fresh (seen keys : list cell) (k : cell) :
  In k (first_occurrences seen keys) -> ~ In k seen.
Proof.
  revert seen. induction keys as [|x keys IH]; intros seen; simpl; [tauto|].
  destruct (existsb (cell_eqb x) seen) eqn:E.
  - apply IH.
  - intros [->|H].
    + intros Hin. apply existsb_cell_eqb in Hin. congruence.
    + intros Hin. apply (IH _ H). now right.
Qed.

Lemma first_occurrences_NoDup (seen keys : list cell) :
  NoDup (first_occurrences seen keys).
Proof.
  revert seen. induction keys as [|x keys IH]; intros seen; simpl.
  - constructor.
  - destruct (existsb (cell_eqb x) seen); [apply IH|].
    constructor; [|apply IH].
    intros H. apply first_occurrences_fresh in H. apply H. now left.
Qed.

Lemma filter_cell_eqb_absent (k : cell) (l : list cell) :
  ~ In k l -> filter (cell_eqb k) l = [].
Proof.
  induction l as [|x l IH]; simpl; intros H; [reflexivity|].
  destruct (cell_eqb k x) eqn:E.
  - apply cell_eqb_eq in E. subst. exfalso. apply H. now left.
  - apply IH. intros Hin. apply H. now right.
Qed.

(** A list without repetition joined with itself: one row per key. *)
Lemma matching_pairs_self (l : list cell) :
  NoDup l -> matching_pairs l l = length l.
Proof.
  induction 1 as [|k l Hk Hl IH]; simpl; [reflexivity|].
  rewrite cell_eqb_refl, matching_pairs_cons_r, IH. simpl.
  now rewrite (filter_cell_eqb_absent k l Hk).
Qed.

Lemma first_occurrences_nil (seen keys : list cell) :
  seen = [] -> (first_occurrences seen keys = [] <-> keys = []).
Proof.
  intros ->. destruct keys as [|k keys]; simpl; [tauto|].
  split; discriminate.
Qed.

Lemma first_occurrences_In (seen keys : list cell) (k : cell) :
  In k (first_occurrences seen keys) <-> In k keys /\ ~ In k seen.
Proof.
  revert seen. induction keys as [|x keys IH]; intros seen; simpl; [tauto|].
  destruct (existsb (cell_eqb x) seen) eqn:E.
  - rewrite IH. apply existsb_cell_eqb in E.
    split; [tauto|]. intros [[->|H] N]; [contradiction|tauto].
  - simpl. rewrite IH. simpl.
    assert (N : ~ In x seen)
      by (intros H; apply existsb_cell_eqb in H; congruence).
    destruct (cell_eqb x k) eqn:K.
    + apply cell_eqb_eq in K. subst. tauto.
    + assert (x <> k) by (intros ->; now rewrite cell_eqb_refl in K).
      tauto.
Qed.

Lemma string_like_first_occurrences (keys : list cell) :
  string_like (first_occurrences [] keys) = string_like keys.
Proof.
  unfold string_like. apply Bool.eq_true_iff_eq.
  rewrite !existsb_exists. split; intros (k & Hk & S); exists k; split; trivial.
  - apply first_occurrences_In in Hk. tauto.
  - apply first_occurrences_In. tauto.
Qed.

(** Whether the keys of the two sides may be merged is not changed by
    [drop_duplicates]. *)
Lemma merge_keys_compatible_first_occurrences (c1 c2 : list cell) :
  merge_keys_compatible (first_occurrences [] c1) (first_occurrences [] c2)
  = merge_keys_compatible c1 c2.
Proof.
  destruct c1 as [|k1 c1].
  - reflexivity.
  - destruct c2 as [|k2 c2].
    + simpl. now destruct (first_occurrences [k1] c1).
    + pose proof (string_like_first_occurrences (k1 :: c1)) as S1.
      pose proof (string_like_first_occurrences (k2 :: c2)) as S2.
      cbn [first_occurrences existsb] in *.
      cbn [merge_keys_compatible]. now rewrite S1, S2.
Qed.


Lemma merge_keys_compatible_refl (c : list cell) :
  merge_keys_compatible c c = true.
Proof.
  destruct c as [|k c]; [reflexivity|].
  cbn [merge_keys_compatible]. now destruct (string_like (k :: c)).
Qed.

(** [count_duplicates] read off the two key columns. *)
Lemma count_duplicates_columns (df1 df2 : DataFrame) (c1 c2 : list cell) :
  getitem df1 "comment" = Ok c1 ->
  getitem df2 "comment" = Ok c2 ->
  count_duplicates df1 df2
  = if merge_keys_compatible c1 c2 then
      let u1 := first_occurrences [] c1 in
      let u2 := first_occurrences [] c2 in
      if Nat.min (length u1) (length u2) =? 0 then Ok 0%Q
      else Ok (percentage (matching_pairs u1 u2)
                          (Nat.min (length u1) (length u2)))
    else Raise merge_dtype_error.
Proof.
  unfold getitem, count_duplicates, drop_duplicates, merge_inner.
  destruct (find_label "comment" (columns df1)) as [i|] eqn:F1; [|discriminate].
  destruct (find_label "comment" (columns df2)) as [j|] eqn:F2; [|discriminate].
  intros H1 H2. inversion H1; inversion H2; subst c1 c2; clear H1 H2.
  assert (C1 : has_column "comment" df1 = true)
    by (apply has_column_find_label; eauto).
  assert (C2 : has_column "comment" df2 = true)
    by (apply has_column_find_label; eauto).
  rewrite C1, C2. cbn [negb orb bind columns rows]. rewrite F1, F2.
  rewrite !drop_dup_rows_keys, merge_keys_compatible_first_occurrences.
  destruct (merge_keys_compatible _ _); [|reflexivity].
  unfold len. cbn [bind rows].
  rewrite merge_rows_length, !drop_dup_rows_keys.
  rewrite <- (length_map (cell_at i) (drop_dup_rows i [] (rows df1))).
  rewrite <- (length_map (cell_at j) (drop_dup_rows j [] (rows df2))).
  now rewrite !drop_dup_rows_keys.
Qed.


Lemma getitem_ok (label : string) (df : DataFrame) :
  has_column label df = true -> exists c, getitem df label = Ok c.
Proof.
  intros H. apply has_column_find_label in H as [i H].
  unfold getitem. rewrite H. eauto.
Qed.

Lemma getitem_ok_has_column (label : string) (df : DataFrame) (c : list cell) :
  getitem df label = Ok c -> has_column label df = true.
Proof.
  unfold getitem. intros H. apply has_column_find_label.
  destruct (find_label label (columns df)) as [i|]; [eauto|discriminate].
Qed.


Lemma percentage_all (n : nat) : n <> 0 -> (percentage n n == 100)%Q.
Proof.
  intros H. unfold percentage, Qdiv.
  rewrite Qmult_inv_r.
  - reflexivity.
  - unfold Qeq. simpl. lia.
Qed.

(** The comparison scenario: three against four comments, two of them
    shared, give two thirds of 100. *)
Example comparison_scenario :
  count_duplicates table_abc table_bcde = Ok (200 # 3)%Q
  /\ count_duplicates table_bcde table_abc = Ok (200 # 3)%Q.
Proof. split; reflexivity. Qed.

End CountDuplicates.

(** ** [break_into_sentences] *)

Section BreakIntoSentences.

Import utils.

Local Open Scope nat_scope.

Lemma re_split_char_not_nil (sep : ascii) (s : string) :
  re_split_char sep s <> [].
Proof.
  induction s as [|c s IH]; simpl; [discriminate|].
  destruct (Ascii.eqb c sep); [discriminate|].
  destruct (re_split_char sep s); [contradiction|discriminate].
Qed.

Lemma apply_str_strings {B : Type} (f : string -> B) (strings : list string) :
  apply_str f (map CStr strings) = Ok (map f strings).
Proof.
  induction strings as [|s strings IH]; simpl; [reflexivity|].
  now rewrite IH.
Qed.

Lemma explode_fragments (strings : list string) :
  explode (map split_sentences_helper strings)
  = map CStr (flat_map split_sentences_helper strings).
Proof.
  unfold explode.
  induction strings as [|s strings IH]; simpl; [reflexivity|].
  rewrite IH, map_app. f_equal.
  unfold split_sentences_helper.
  pose proof (re_split_char_not_nil "." s).
  destruct (re_split_char "." s); [contradiction|reflexivity].
Qed.

(** On a column of strings, [break_into_sentences] keeps every fragment but
    those that are exactly one space, and strips what it keeps. *)
Lemma break_into_sentences_strings (df : DataFrame) (strings : list string) :
  getitem df "comment" = Ok (map CStr strings) ->
  break_into_sentences df
  = Ok (frame_of_list
          (map (fun fragment => CStr (strip fragment))
               (filter (fun fragment => negb (String.eqb fragment " "))
                       (flat_map split_sentences_helper strings)))
          "comment").
Proof.
  intros G. unfold break_into_sentences. rewrite G.
  unfold bind at 1. rewrite apply_str_strings. unfold bind at 1.
  rewrite explode_fragments.
  generalize (flat_map split_sentences_helper strings) as fragments.
  intros fragments.
  unfold dropna_subset, frame_of_list, getitem, set_single_column, dropna,
    where_ne, str_strip, bind; simpl.
  do 2 f_equal.
  induction fragments as [|f fragments IH]; simpl; [reflexivity|].
  destruct (String.eqb f " ") eqn:E; simpl; [exact IH|].
  now rewrite IH.
Qed.

(** The split of a comment that ends with a period ends with an empty
    fragment. *)
Lemma split_final_period (s : string) :
  exists fragments,
    fragments <> []
    /\ split_sentences_helper (s ++ ".")%string = fragments ++ [EmptyString].
Proof.
  unfold split_sentences_helper.
  induction s as [|c s (fragments & Hne & IH)]; simpl.
  - exists [EmptyString]. split; [discriminate|reflexivity].
  - rewrite IH. destruct (Ascii.eqb c ".").
    + exists (EmptyString :: fragments). split; [discriminate|reflexivity].
    + destruct fragments as [|p ps]; [contradiction|].
      exists (String c p :: ps). split; [discriminate|reflexivity].
Qed.

(** So every comment that ends with a period leaves an empty record. *)
Lemma final_period_empty_record (df : DataFrame) (strings : list string)
  (s : string) :
  getitem df "comment" = Ok (map CStr strings) ->
  In (s ++ ".")%string strings ->
  exists out,
    break_into_sentences df = Ok out /\ In (CStr EmptyString) (records out).
Proof.
  intros G Hin. rewrite (break_into_sentences_strings df strings G).
  eexists. split; [reflexivity|].
  rewrite records_frame_of_list.
  apply in_map_iff. exists EmptyString. split; [reflexivity|].
  apply filter_In. split; [|reflexivity].
  apply in_flat_map. exists (s ++ ".")%string. split; [exact Hin|].
  destruct (split_final_period s) as (fragments & _ & ->).
  apply in_or_app. right. now left.
Qed.

End BreakIntoSentences.

(** ** [topic_aggregation] *)

Section TopicAggregation.

Import utils.

Local Open Scope nat_scope.

Lemma select_map_filter {A : Type} (f : A -> bool) (l : list A) :
  select (map f l) l = filter f l.
Proof.
  induction l as [|x l IH]; simpl; [reflexivity|].
  destruct (f x); now rewrite IH.
Qed.

Lemma existsb_Zeqb (z : Z) (l : list Z) :
  existsb (Z.eqb z) l = if in_dec Z.eq_dec z l then true else false.
Proof.
  destruct (in_dec Z.eq_dec z l) as [H|H].
  - apply existsb_exists. exists z. split; [exact H|apply Z.eqb_refl].
  - destruct (existsb (Z.eqb z) l) eqn:E; [|reflexivity].
    apply existsb_exists in E as (x & Hx & E). apply Z.eqb_eq in E.
    subst. contradiction.
Qed.

Lemma nth_nth_error (i : nat) (r : list cell) :
  cell_at i r = match nth_error r i with Some c => c | None => NaN end.
Proof.
  unfold cell_at. revert i. induction r as [|x r IH]; intros [|i]; simpl; auto.
Qed.

(** The mask of [isin] selects the rows whose topic is a selected one. *)
Lemma isin_mask (cols : list string) (i : nat) (selected : list Z)
  (rs : list (list cell)) :
  find_label "topics" cols = Some i ->
  select (isin (map (cell_at i) rs) selected) rs
  = filter (topic_selected cols selected) rs.
Proof.
  intros F. unfold isin. rewrite map_map, select_map_filter.
  apply filter_ext. intros r. unfold topic_selected, row_get.
  rewrite F, nth_nth_error.
  destruct (nth_error r i) as [[s|z|]|]; try reflexivity.
  apply existsb_Zeqb.
Qed.

(** Dropping the columns of a label leaves the cells under every other
    label where a lookup finds them. *)
Lemma row_get_drop (dropped label : string) (cols : list string)
  (r : list cell) :
  label <> dropped ->
  let mask := map (fun c => negb (String.eqb c dropped)) cols in
  row_get (select mask cols) (select mask r) label = row_get cols r label.
Proof.
  intros Hne. revert r. induction cols as [|c cols IH]; intros r; simpl.
  - reflexivity.
  - destruct r as [|x r].
    + unfold row_get.
      destruct (find_label label _) as [[|k]|], (find_label label _) as [[|k']|];
        reflexivity.
    + specialize (IH r). simpl in IH. unfold row_get in *. simpl.
      destruct (String.eqb_spec c dropped) as [->|Hc]; simpl.
      * destruct (String.eqb_spec label dropped) as [->|_]; [contradiction|].
        rewrite IH.
        destruct (find_label label cols); reflexivity.
      * destruct (String.eqb label c); [reflexivity|].
        destruct (find_label label (select _ cols)), (find_label label cols);
          simpl in *; try assumption; try reflexivity; try discriminate.
Qed.

Lemma has_column_dropped (dropped : string) (cols : list string) :
  existsb (String.eqb dropped)
          (select (map (fun c => negb (String.eqb c dropped)) cols) cols)
  = false.
Proof.
  induction cols as [|c cols IH]; simpl; [reflexivity|].
  destruct (String.eqb_spec c dropped) as [->|Hc]; simpl; [exact IH|].
  rewrite IH. destruct (String.eqb_spec dropped c); [congruence|reflexivity].
Qed.

Lemma select_ne_filter (dropped : string) (cols : list string) :
  select (map (fun c => negb (String.eqb c dropped)) cols) cols
  = filter (fun c => negb (String.eqb c dropped)) cols.
Proof. apply select_map_filter. Qed.

(** What [topic_aggregation] returns on a frame with a column [topics]. *)
Lemma topic_aggregation_ok (selected : list Z) (df : DataFrame) :
  has_column "topics" df = true ->
  let mask := map (fun c => negb (String.eqb c "topics")) (columns df) in
  topic_aggregation selected df
  = Ok {| columns := select mask (columns df);
          rows := map (select mask)
                      (filter (topic_selected (columns df) selected)
                              (rows df)) |}.
Proof.
  intros H. pose proof H as H'.
  apply has_column_find_label in H' as [i F].
  unfold topic_aggregation, getitem. rewrite F.
  unfold bind, drop_columns, select_rows, has_column in *.
  cbn [columns rows]. rewrite H.
  now rewrite (isin_mask (columns df) i selected (rows df) F).
Qed.

(** The export scenario: the topics 1 and 3 of five rows leave three
    rows and no column [topics]. *)
Example export_scenario :
  topic_aggregation [1; 3]%Z labelled_table
  = Ok {| columns := ["comment"%string];
          rows := [[CStr "a"]; [CStr "c"]; [CStr "d"]] |}.
Proof. reflexivity. Qed.

End TopicAggregation.

(** ** The session *)

Section Session.

Import app.

Local Open Scope nat_scope.

(** A button of a view is enabled only under the status of a finished or of
    a running training. *)
Lemma enabled_status (self : App) :
  reachable self ->
  forall v, button v self = normal ->
    model_status_var self = "Model training done."%string
    \/ model_status_var self = "Model is training..."%string.
Proof.
  induction 1 as [|self R IH|t self R IH T]; intros v.
  - destruct v; discriminate.
  - intros _. now right.
  - destruct t, v; simpl; intros H; try discriminate; now left.
Qed.

Lemma reachable_phase (self : App) :
  reachable self -> exists p, phase_of self = Some p.
Proof.
  induction 1 as [|self R IH|t self R IH T].
  - now exists Idle.
  - now exists Training.
  - destruct t; [now exists Failed|now exists Failed|now exists Ready].
Qed.

Lemma phase_idle_or_failed_status (self : App) :
  phase_of self = Some Idle \/ phase_of self = Some Failed ->
  model_status_var self <> "Model training done."%string
  /\ model_status_var self <> "Model is training..."%string.
Proof.
  unfold phase_of. intros H; split; intros E; rewrite E in H; simpl in H;
    destruct H; discriminate.
Qed.

Lemma topic_aggregation_raises (selected : list Z) (labelled : DataFrame)
  (e : exn) :
  utils.topic_aggregation selected labelled = Raise e -> e = KeyError "topics".
Proof.
  destruct (has_column "topics" labelled) eqn:C.
  - rewrite (topic_aggregation_ok selected labelled C). discriminate.
  - apply has_column_false in C.
    unfold utils.topic_aggregation, getitem. rewrite C. simpl.
    now inversion 1.
Qed.

Lemma retraining_session_reachable : reachable retraining_session.
Proof.
  unfold retraining_session.
  apply reach_run_model, reach_training_end; [|simpl; lia].
  apply reach_run_model, reach_init.
Qed.

(** During the second training the buttons of the views are still enabled
    and the table of the first training is still held: the views and the
    export run. *)
Lemma retraining_session_runs :
  click detailed_info retraining_session
  = called detailed_info {| nr_topics := 3 |}
  /\ click hierarchy retraining_session = called hierarchy {| nr_topics := 3 |}
  /\ click barchart retraining_session = called barchart {| nr_topics := 3 |}
  /\ _csv_subset (Some [1; 3]%Z) retraining_session
     = saved {| columns := ["comment"%string];
                rows := [[CStr "a"]; [CStr "c"]; [CStr "d"]] |}.
Proof. repeat split. Qed.

(** Before any training the export finds no table to read. *)
Lemma csv_subset_before_training (selected : list Z) :
  _csv_subset (Some selected) init = raised (AttributeError "df").
Proof. reflexivity. Qed.

End Session.

(** * The properties of the specification *)

Section Claims.

Import docx_to_csv utils app.

Local Open Scope nat_scope.

(** ** Comment parsing *)

(** C1.  On the text of the scenario, [string_to_df] returns the table of the
    two records "Great place to work." and "No comment", in that order.  In
    general, a candidate line that is exactly "nan" once its numbering is
    stripped gives the record "No comment", at its place between the records
    of the lines before it and those of the lines after it; and "nan" is no
    record of the table. *)
Theorem C1_nan_becomes_no_comment :
  string_to_df scenario_text
  = Ok {| columns := ["comment"%string];
          rows := [[CStr "Great place to work."]; [CStr "No comment"]] |}
  /\ forall (input : string) (df : DataFrame)
            (before : list string) (line : string) (after : list string),
      string_to_df input = Ok df ->
      comment_list_raw input = before ++ line :: after ->
      strip_numbering line = "nan"%string ->
      (exists out1 out2,
          comments_frame (comment_list_pre before) = Ok out1
          /\ comments_frame (comment_list_pre after) = Ok out2
          /\ records df = records out1 ++ CStr "No comment" :: records out2)
      /\ ~ In (CStr "nan") (records df).
Proof.
  split; [reflexivity|].
  intros input df before line after H L N.
  apply string_to_df_ok_inv in H. subst df.
  rewrite records_frame_of_list. split.
  - exists (frame_of_list (map CStr (cleaned (comment_list_pre before))) "comment"),
           (frame_of_list (map CStr (cleaned (comment_list_pre after))) "comment").
    rewrite !comments_frame_cleaned, !records_frame_of_list.
    repeat split.
    rewrite L, comment_list_pre_app, cleaned_app, map_app. f_equal.
    unfold comment_list_pre at 1. simpl filter.
    rewrite (strip_numbering_nan_kept line N). simpl map at 1.
    rewrite N. reflexivity.
  - intros H. apply in_map_iff in H as (s & E & H). inversion E; subst s.
    exact (cleaned_not_nan _ H).
Qed.

Lemma C1_witness :
  (exists out1 out2,
      comments_frame (comment_list_pre ["1. Great place to work."%string])
      = Ok out1
      /\ comments_frame (comment_list_pre [notice]) = Ok out2
      /\ records {| columns := ["comment"%string];
                    rows := [[CStr "Great place to work."];
                             [CStr "No comment"]] |}
         = records out1 ++ CStr "No comment" :: records out2)
  /\ ~ In (CStr "nan")
          (records {| columns := ["comment"%string];
                      rows := [[CStr "Great place to work."];
                               [CStr "No comment"]] |}).
Proof.
  apply (proj2 C1_nan_becomes_no_comment scenario_text _
           ["1. Great place to work."%string] "2. nan"%string [notice]);
    reflexivity.
Defined.

(** C4, as the code has it.  The parse of a text with a marker returns a
    table in which every record comes from a candidate line that is neither
    empty nor exactly the distribution notice, and the table is the one the
    candidate lines give once every notice line is taken out of them,
    wherever and however often they occur.  (A record may still be the text
    of the notice when its line is that text behind a numbering or between
    spaces.) *)
Theorem C4_notice_lines_leave_no_record (input : string) :
  has_marker input ->
  exists df,
    string_to_df input = Ok df
    /\ (forall r, In r (records df) ->
          exists line,
            In line (comment_list_raw input)
            /\ line <> notice /\ line <> EmptyString
            /\ r = CStr (nan_to_nocomment (strip_numbering line)))
    /\ comments_frame
         (comment_list_pre
            (filter (fun l => negb (String.eqb l notice))
                    (comment_list_raw input)))
       = Ok df.
Proof.
  intros M. apply marker_anywhere_has_marker in M.
  eexists. split; [apply (string_to_df_marker input M)|]. split.
  - intros r H. rewrite records_frame_of_list in H.
    apply in_map_iff in H as (s & <- & H).
    unfold cleaned in H. apply filter_In in H as [H _].
    apply in_map_iff in H as (p & <- & H).
    unfold comment_list_pre in H.
    apply in_map_iff in H as (line & <- & H).
    apply filter_In in H as [H K]. apply kept_iff in K as [K1 K2].
    now exists line.
  - rewrite comments_frame_cleaned. unfold comment_list_pre.
    now rewrite filter_kept_without_notice.
Qed.

Lemma C4_witness :
  exists df,
    string_to_df scenario_text = Ok df
    /\ (forall r, In r (records df) ->
          exists line,
            In line (comment_list_raw scenario_text)
            /\ line <> notice /\ line <> EmptyString
            /\ r = CStr (nan_to_nocomment (strip_numbering line)))
    /\ comments_frame
         (comment_list_pre
            (filter (fun l => negb (String.eqb l notice))
                    (comment_list_raw scenario_text)))
       = Ok df.
Proof.
  apply (C4_notice_lines_leave_no_record scenario_text).
  apply marker_anywhere_has_marker. reflexivity.
Defined.

(** C4, as it is stated, fails: the text [quoted_notice_text] holds a marker
    and its table has the distribution notice as a record. *)
Lemma C4_counterexample :
  ~ (has_marker quoted_notice_text ->
     forall df, string_to_df quoted_notice_text = Ok df ->
                ~ In (CStr notice) (records df)).
Proof.
  intros claim.
  apply (claim (proj1 (marker_anywhere_has_marker quoted_notice_text) eq_refl)
               {| columns := ["comment"%string]; rows := [[CStr notice]] |}).
  - reflexivity.
  - now left.
Qed.

(** C8.  A text that holds no section marker, that is no "Comments: ("
    followed by one or more digits and ")", makes [string_to_df] raise
    "The Comments section was not found"; no table is returned. *)
Theorem C8_no_marker_raises (input : string) :
  ~ has_marker input ->
  string_to_df input = Raise (ValueError "The Comments section was not found").
Proof.
  intros M. apply string_to_df_no_marker.
  destruct (marker_anywhere input) eqn:E; [|reflexivity].
  exfalso. apply M. now apply marker_anywhere_has_marker.
Qed.

Lemma C8_witness :
  string_to_df ("Comments: ()" ++ nl ++ "1. Great place to work.")%string
  = Raise (ValueError "The Comments section was not found").
Proof.
  apply C8_no_marker_raises. apply has_marker_false. reflexivity.
Defined.

(** ** Sentence splitting *)

(** C3, at the table of the one comment "Hello.": [break_into_sentences]
    returns the two records "Hello" and the empty string.  The fragment after
    the final period is empty, it differs from the single space the code
    drops, and nothing is dropped after the stripping. *)
Theorem C3_empty_record_returned :
  break_into_sentences
    {| columns := ["comment"%string]; rows := [[CStr "Hello."]] |}
  = Ok {| columns := ["comment"%string];
          rows := [[CStr "Hello"]; [CStr EmptyString]] |}.
Proof. reflexivity. Qed.

(** ** Duplicate comparison *)

(** C5.  A table with a [comment] column compared with itself gives 100 when
    it has a row, and 0 when it has none. *)
Theorem C5_self_comparison (A : DataFrame) :
  has_column "comment" A = true ->
  (rows A <> [] -> exists q, count_duplicates A A = Ok q /\ (q == 100)%Q)
  /\ (rows A = [] -> count_duplicates A A = Ok 0%Q).
Proof.
  intros C. destruct (getitem_ok _ _ C) as [c G].
  rewrite (count_duplicates_columns A A c c G G).
  rewrite merge_keys_compatible_refl. cbv zeta.
  rewrite Nat.min_id.
  assert (E : c = [] <-> rows A = []).
  { unfold getitem in G.
    destruct (find_label "comment" (columns A)); [|discriminate].
    inversion G. destruct (rows A); simpl; split; congruence. }
  split; intros R.
  - destruct (Nat.eqb_spec (length (first_occurrences [] c)) 0) as [L|L].
    + apply length_zero_iff_nil, first_occurrences_nil in L; [|reflexivity].
      tauto.
    + eexists. split; [reflexivity|].
      rewrite matching_pairs_self by apply first_occurrences_NoDup.
      now apply percentage_all.
  - apply E in R. subst c. reflexivity.
Qed.

Lemma C5_witness :
  (exists q, count_duplicates table_abc table_abc = Ok q /\ (q == 100)%Q)
  /\ count_duplicates table_empty table_empty = Ok 0%Q.
Proof.
  split.
  - apply (proj1 (C5_self_comparison table_abc eq_refl)). discriminate.
  - apply (proj2 (C5_self_comparison table_empty eq_refl)). reflexivity.
Defined.







(** ** Topic subsets *)

(** C2.  On a table with a [topics] column, [topic_aggregation] returns a
    table without a [topics] column whose other columns are those of the
    input in their order; its rows are, in their order, the rows of the input
    whose topic is one of the selected ids, and each holds under every label
    other than [topics] the cell the input row holds. *)
Theorem C2_topic_subset (selected : list Z) (df : DataFrame) :
  has_column "topics" df = true ->
  exists out,
    topic_aggregation selected df = Ok out
    /\ has_column "topics" out = false
    /\ columns out
       = filter (fun c => negb (String.eqb c "topics")) (columns df)
    /\ Forall2
         (fun r r' =>
            forall label, label <> "topics"%string ->
              row_get (columns out) r' label = row_get (columns df) r label)
         (filter (topic_selected (columns df) selected) (rows df))
         (rows out).
Proof.
  intros C. eexists. split; [apply (topic_aggregation_ok selected df C)|].
  cbn [columns rows]. split; [|split].
  - apply has_column_dropped.
  - apply select_ne_filter.
  - induction (filter (topic_selected (columns df) selected) (rows df))
      as [|r rs IH]; simpl; constructor; [|exact IH].
    intros label Hne. now apply row_get_drop.
Qed.

Lemma C2_witness :
  exists out,
    topic_aggregation [1; 3]%Z labelled_table = Ok out
    /\ has_column "topics" out = false
    /\ columns out
       = filter (fun c => negb (String.eqb c "topics"))
                (columns labelled_table)
    /\ Forall2
         (fun r r' =>
            forall label, label <> "topics"%string ->
              row_get (columns out) r' label
              = row_get (columns labelled_table) r label)
         (filter (topic_selected (columns labelled_table) [1; 3]%Z)
                 (rows labelled_table))
         (rows out).
Proof. apply (C2_topic_subset [1; 3]%Z labelled_table). reflexivity. Defined.

(** ** Session phases *)

(** C9, as the code has it.  In a session whose phase is Idle or Failed the
    buttons of the three views are disabled and a click on one of them calls
    nothing.  No operation signals [InvalidStateError] in any phase: a view
    calls into the model or shows an error box, and the export, whose button
    is never disabled, writes a subset or raises another exception. *)
Theorem C9_views_disabled_when_idle_or_failed (self : App) :
  reachable self ->
  (phase_of self = Some Idle \/ phase_of self = Some Failed ->
   forall v, button v self = disabled /\ click v self = not_invoked)
  /\ (forall v, click v self <> raised InvalidStateError)
  /\ (forall selected, _csv_subset selected self <> raised InvalidStateError).
Proof.
  intros R. split; [|split].
  - intros P v. apply phase_idle_or_failed_status in P as [P1 P2].
    assert (B : button v self = disabled).
    { destruct (button v self) eqn:B; [|reflexivity].
      destruct (enabled_status self R v B); contradiction. }
    split; [exact B|]. unfold click. now rewrite B.
  - intros v. unfold click, view_command.
    destruct (button v self), (model self); discriminate.
  - intros [selected|]; simpl; [|discriminate].
    destruct (df self) as [labelled|]; [|discriminate].
    destruct (topic_aggregation selected labelled) eqn:T; [discriminate|].
    apply topic_aggregation_raises in T. subst e. discriminate.
Qed.

Lemma C9_witness :
  (forall v, button v init = disabled /\ click v init = not_invoked)
  /\ (forall v, click v init <> raised InvalidStateError)
  /\ (forall selected, _csv_subset selected init <> raised InvalidStateError).
Proof.
  destruct (C9_views_disabled_when_idle_or_failed init reach_init)
    as (H1 & H2 & H3).
  split; [|split]; [|exact H2|exact H3].
  apply H1. left. reflexivity.
Defined.

(** C9, as it is stated, fails.  [retraining_session] is a state of a session
    whose phase is Training, not Ready; there a click on a view and the
    export do not signal [InvalidStateError]: they run. *)
Lemma C9_counterexample :
  reachable retraining_session
  /\ phase_of retraining_session = Some Training
  /\ ~ ((forall v, click v retraining_session = raised InvalidStateError)
        /\ (forall selected,
              _csv_subset selected retraining_session
              = raised InvalidStateError)).
Proof.
  split; [apply retraining_session_reachable|].
  split; [reflexivity|].
  intros [H _]. specialize (H detailed_info).
  rewrite (proj1 retraining_session_runs) in H. discriminate.
Qed.

End Claims.

(** * Further properties of the code *)

(** ** Stripping and splitting *)

Section Splitting.

Import docx_to_csv utils.

Local Open Scope nat_scope.
Local Open Scope string_scope.

Lemma lstrip_head (s : string) :
  lstrip s = "" \/ exists c r, lstrip s = String c r /\ is_space c = false.
Proof.
  induction s as [|c s IH]; simpl; [now left|].
  destruct (is_space c) eqn:E; [exact IH|]. right. now exists c, s.
Qed.

Lemma rstrip_head (c : ascii) (s : string) :
  is_space c = false -> exists r, rstrip (String c s) = String c r.
Proof.
  intros E. simpl. destruct (rstrip s) as [|d r].
  - rewrite E. now exists "".
  - now exists (String d r).
Qed.

Lemma rstrip_idempotent (s : string) : rstrip (rstrip s) = rstrip s.
Proof.
  induction s as [|c s IH]; simpl; [reflexivity|].
  destruct (rstrip s) as [|d r] eqn:R.
  - destruct (is_space c) eqn:E; simpl; [reflexivity|now rewrite E].
  - change (rstrip (String c (String d r)) = String c (String d r)).
    simpl rstrip at 1. simpl in IH.
    destruct (match rstrip r with
              | "" => if is_space d then "" else String d ""
              | String a s0 => String d (String a s0)
              end) eqn:M; [discriminate|].
    now rewrite IH.
Qed.

(** [strip] leaves a stripped string as it is. *)
Lemma strip_idempotent (s : string) : strip (strip s) = strip s.
Proof.
  unfold strip.
  destruct (lstrip_head s) as [E|(c & r & E & Hc)]; rewrite E.
  - reflexivity.
  - destruct (rstrip_head c r Hc) as [r' R]. rewrite R.
    simpl lstrip. rewrite Hc, <- R. apply rstrip_idempotent.
Qed.

(** Joining the pieces of a split with the separator gives the text back,
    and no piece holds the separator. *)
Lemma concat_cons_head (sep : string) (c : ascii) (l : list string) :
  l <> [] -> String.concat sep (cons_head c l) = String c (String.concat sep l).
Proof.
  destruct l as [|p [|q l]]; [contradiction|reflexivity|reflexivity].
Qed.

Lemma concat_re_split_char (sep : ascii) (s : string) :
  String.concat (String sep "") (re_split_char sep s) = s.
Proof.
  induction s as [|c s IH]; simpl; [reflexivity|].
  destruct (Ascii.eqb_spec c sep) as [->|N].
  - pose proof (re_split_char_not_nil sep s) as P.
    destruct (re_split_char sep s) as [|p l]; [contradiction|].
    simpl in *. now rewrite IH.
  - rewrite concat_cons_head by apply re_split_char_not_nil. now rewrite IH.
Qed.

Lemma re_split_char_free (sep : ascii) (s : string) :
  Forall (fun p => free_of sep p = true) (re_split_char sep s).
Proof.
  induction s as [|c s IH]; simpl.
  - now constructor.
  - destruct (Ascii.eqb c sep) eqn:E.
    + now constructor.
    + destruct (re_split_char sep s) as [|p l]; simpl.
      * constructor; [simpl; now rewrite E|constructor].
      * inversion IH; subst. constructor; [simpl; now rewrite E|assumption].
Qed.

Lemma re_split_char_free_piece (sep : ascii) (p : string) :
  free_of sep p = true -> re_split_char sep p = [p].
Proof.
  induction p as [|c p IH]; simpl; [reflexivity|].
  intros H. apply andb_true_iff in H as [N F].
  apply negb_true_iff in N. rewrite N, (IH F). reflexivity.
Qed.

Lemma re_split_char_app (sep : ascii) (p rest : string) :
  free_of sep p = true ->
  re_split_char sep (p ++ String sep rest) = p :: re_split_char sep rest.
Proof.
  induction p as [|c p IH]; simpl.
  - intros _. now rewrite Ascii.eqb_refl.
  - intros H. apply andb_true_iff in H as [N F].
    apply negb_true_iff in N. rewrite N, (IH F). reflexivity.
Qed.

(** Splitting a join of pieces without the separator gives the pieces. *)
Lemma re_split_char_concat (sep : ascii) (l : list string) :
  l <> [] -> Forall (fun p => free_of sep p = true) l ->
  re_split_char sep (String.concat (String sep "") l) = l.
Proof.
  induction l as [|p l IH]; [contradiction|]. intros _ F.
  inversion F as [|? ? Fp Fl]; subst.
  destruct l as [|q l].
  - simpl. now apply re_split_char_free_piece.
  - change (String.concat (String sep "") (p :: q :: l))
      with (p ++ String sep (String.concat (String sep "") (q :: l))).
    rewrite re_split_char_app by assumption.
    f_equal. apply IH; [discriminate|assumption].
Qed.

End Splitting.

(** ** More on [docx_to_csv.py] *)

Section DocxToCsv.

Import docx_to_csv.

Local Open Scope nat_scope.
Local Open Scope string_scope.

#[local] Arguments comments_match : simpl never.

Lemma append_assoc (a b c : string) : (a ++ b) ++ c = a ++ b ++ c.
Proof. induction a as [|x a IH]; simpl; [reflexivity|now rewrite IH]. Qed.

Lemma append_nil_r (s : string) : s ++ "" = s.
Proof. induction s as [|x s IH]; simpl; [reflexivity|now rewrite IH]. Qed.

Lemma length_append (a b : string) :
  String.length (a ++ b) = String.length a + String.length b.
Proof. induction a as [|x a IH]; simpl; [reflexivity|now rewrite IH]. Qed.

(** *** [read_docx] *)

Lemma fold_read_docx (paragraphs : list string) (full_text : string) :
  fold_left (fun full_text text => full_text ++ text ++ nl) paragraphs full_text
  = full_text ++ read_docx paragraphs.
Proof.
  unfold read_docx. revert full_text.
  induction paragraphs as [|p ps IH]; intros acc; simpl.
  - now rewrite append_nil_r.
  - rewrite (IH (acc ++ p ++ nl)), (IH (p ++ nl)).
    now rewrite !append_assoc.
Qed.

Lemma read_docx_cons (p : string) (ps : list string) :
  read_docx (p :: ps) = p ++ nl ++ read_docx ps.
Proof.
  unfold read_docx at 1. simpl. rewrite fold_read_docx.
  now rewrite append_assoc.
Qed.

Lemma read_docx_app (a b : list string) :
  read_docx (a ++ b) = read_docx a ++ read_docx b.
Proof.
  induction a as [|p a IH]; [reflexivity|].
  change ((p :: a) ++ b)%list with (p :: (a ++ b)%list).
  now rewrite !read_docx_cons, IH, !append_assoc.
Qed.

(** *** The numbering of a line *)

Lemma split_at_numbering (idx text : string) :
  free_of "." idx = true ->
  split_dot_space_1 (idx ++ ". " ++ text) = [idx; text].
Proof.
  induction idx as [|c idx IH]; intros F; [reflexivity|].
  simpl in F. apply andb_true_iff in F as [N F]. apply negb_true_iff in N.
  specialize (IH F).
  change (String c idx ++ ". " ++ text) with (String c (idx ++ ". " ++ text)).
  destruct (idx ++ ". " ++ text) as [|d rest] eqn:E.
  - destruct idx; discriminate.
  - cbn [split_dot_space_1]. rewrite N. cbn [andb].
    cbn [split_dot_space_1] in IH. now rewrite IH.
Qed.

Lemma split_without_period (line : string) :
  free_of "." line = true -> split_dot_space_1 line = [line].
Proof.
  induction line as [|c line IH]; intros F; [reflexivity|].
  simpl in F. apply andb_true_iff in F as [N F]. apply negb_true_iff in N.
  specialize (IH F).
  destruct line as [|d rest]; [reflexivity|].
  cbn [split_dot_space_1]. rewrite N. cbn [andb].
  cbn [split_dot_space_1] in IH. now rewrite IH.
Qed.

(** *** The marker and what is around it *)

Lemma drop_prefix_extend_none (q p t : string) (c : ascii) :
  free_of c q = true ->
  drop_prefix q p = None -> drop_prefix q (p ++ String c t) = None.
Proof.
  revert p. induction q as [|a q IH]; intros p F H; [discriminate|].
  simpl in F. apply andb_true_iff in F as [N F]. apply negb_true_iff in N.
  destruct p as [|b p]; simpl in *.
  - now rewrite N.
  - destruct (Ascii.eqb a b); [now apply IH|reflexivity].
Qed.

Lemma drop_prefix_extend_some (q p r t : string) :
  drop_prefix q p = Some r -> drop_prefix q (p ++ t) = Some (r ++ t).
Proof.
  revert p. induction q as [|a q IH]; intros p H; simpl in *.
  - now inversion H.
  - destruct p as [|b p]; [discriminate|]. simpl.
    destruct (Ascii.eqb a b); [now apply IH|discriminate].
Qed.

Lemma span_digits_extend (r t : string) (c : ascii) :
  is_digit c = false ->
  span_digits (r ++ String c t)
  = (fst (span_digits r), snd (span_digits r) ++ String c t).
Proof.
  intros D. induction r as [|a r IH]; simpl.
  - now rewrite D.
  - destruct (is_digit a); [|reflexivity].
    rewrite IH. now destruct (span_digits r).
Qed.

(** A match never runs into the first letter of a later marker. *)
Lemma comments_match_extend (p t : string) :
  p <> "" -> comments_match p = None ->
  comments_match (p ++ String "C" t) = None.
Proof.
  intros Hp H. destruct p as [|b p]; [contradiction|].
  unfold comments_match in *.
  change (drop_prefix "Comments: (" (String b p ++ String "C" t))
    with (if Ascii.eqb "C" b
          then drop_prefix "omments: (" (p ++ String "C" t) else None).
  change (drop_prefix "Comments: (" (String b p))
    with (if Ascii.eqb "C" b then drop_prefix "omments: (" p else None) in H.
  destruct (Ascii.eqb "C" b); [|reflexivity].
  destruct (drop_prefix "omments: (" p) as [r|] eqn:P.
  - rewrite (drop_prefix_extend_some _ _ _ _ P).
    rewrite span_digits_extend by reflexivity.
    destruct (span_digits r) as [[|n] r']; [reflexivity|]. simpl.
    destruct r' as [|c r'']; [reflexivity|]. simpl.
    destruct (Ascii.eqb c ")"); [discriminate|reflexivity].
  - now rewrite (drop_prefix_extend_none "omments: (" p t "C" eq_refl P).
Qed.

Lemma re_split_skip (m u : string) :
  re_split_from (String.length m) (m ++ u) = re_split_from 0 u.
Proof. induction m as [|c m IH]; simpl; [reflexivity|exact IH]. Qed.

Lemma marker_head (ds u : string) :
  marker ds ++ u = String "C" (("omments: (" ++ ds ++ ")") ++ u).
Proof. reflexivity. Qed.

Lemma marker_match (ds u : string) :
  ds <> "" -> all_digits ds = true ->
  comments_match (marker ds ++ u)
  = Some (S (String.length ("omments: (" ++ ds ++ ")"))).
Proof.
  intros N D. unfold marker. rewrite !append_assoc.
  rewrite (comments_match_complete ds u N D). f_equal.
  rewrite !length_append. simpl. lia.
Qed.

(** The split puts what is before the first marker in the first piece and
    goes on behind the marker. *)
Lemma re_split_at_marker (pre ds u : string) :
  marker_anywhere pre = false -> ds <> "" -> all_digits ds = true ->
  re_split_comments (pre ++ marker ds ++ u) = pre :: re_split_comments u.
Proof.
  intros M N D. unfold re_split_comments.
  induction pre as [|a pre IH].
  - change ("" ++ marker ds ++ u) with (marker ds ++ u).
    pose proof (marker_match ds u N D) as C. rewrite marker_head in *.
    cbn [re_split_from]. rewrite C. f_equal. apply re_split_skip.
  - simpl in M.
    destruct (comments_match (String a pre)) eqn:C; [discriminate|].
    specialize (IH M).
    assert (C' : comments_match (String a pre ++ marker ds ++ u) = None).
    { rewrite marker_head. now apply comments_match_extend. }
    change (String a pre ++ marker ds ++ u)
      with (String a (pre ++ marker ds ++ u)) in *.
    cbn [re_split_from]. rewrite C', IH. reflexivity.
Qed.

End DocxToCsv.

Section DocxToCsvProperties.

Import docx_to_csv.

Local Open Scope nat_scope.
Local Open Scope string_scope.

(** Every record of the table [string_to_df] returns is a string that is not
    empty, is not "nan" and has no whitespace at either end; the table has
    the one column [comment]. *)
Theorem string_to_df_records_clean (input : string) (df : DataFrame) :
  string_to_df input = Ok df ->
  columns df = ["comment"]
  /\ Forall (fun r => exists s, r = CStr s /\ s <> "" /\ s <> "nan"
                                /\ strip s = s)
            (records df).
Proof.
  intros H. apply string_to_df_ok_inv in H. subst df.
  split; [reflexivity|].
  rewrite records_frame_of_list. apply Forall_forall. intros r Hr.
  apply in_map_iff in Hr as (s & <- & Hs). exists s.
  split; [reflexivity|]. split; [|split].
  - intros ->. exact (cleaned_not_empty _ Hs).
  - intros ->. exact (cleaned_not_nan _ Hs).
  - unfold cleaned in Hs. apply filter_In in Hs as [Hs _].
    apply in_map_iff in Hs as (p & <- & Hp).
    unfold comment_list_pre in Hp. apply in_map_iff in Hp as (line & <- & _).
    unfold nan_to_nocomment, strip_numbering.
    destruct (String.eqb _ "nan"); [reflexivity|apply strip_idempotent].
Qed.

Lemma string_to_df_records_clean_witness :
  columns {| columns := ["comment"];
             rows := [[CStr "Great place to work."]; [CStr "No comment"]] |}
  = ["comment"]
  /\ Forall (fun r => exists s, r = CStr s /\ s <> "" /\ s <> "nan"
                                /\ strip s = s)
            (records {| columns := ["comment"];
                        rows := [[CStr "Great place to work."];
                                 [CStr "No comment"]] |}).
Proof.
  apply (string_to_df_records_clean scenario_text). reflexivity.
Defined.

(** Only the text between the first and the second marker is parsed: what
    stands before the first marker, and the second marker with all that
    follows it, change nothing. *)
Theorem string_to_df_first_section (pre ds body ds' rest : string) :
  marker_anywhere pre = false -> marker_anywhere body = false ->
  ds <> "" -> all_digits ds = true -> ds' <> "" -> all_digits ds' = true ->
  string_to_df (pre ++ marker ds ++ body) = string_to_df (marker ds ++ body)
  /\ string_to_df (pre ++ marker ds ++ body ++ marker ds' ++ rest)
     = string_to_df (marker ds ++ body).
Proof.
  intros Mp Mb N D N' D'.
  pose proof (re_split_at_marker pre ds body Mp N D) as E1.
  pose proof (re_split_at_marker "" ds body eq_refl N D) as E0.
  pose proof (re_split_at_marker pre ds (body ++ marker ds' ++ rest) Mp N D)
    as E2.
  rewrite (re_split_at_marker body ds' rest Mb N' D') in E2.
  rewrite (re_split_no_match body Mb) in E0, E1.
  change ("" ++ marker ds ++ body) with (marker ds ++ body) in E0.
  unfold string_to_df, comment_list_raw, data_raw.
  rewrite E0, E1, E2. split; reflexivity.
Qed.

Lemma string_to_df_first_section_witness :
  string_to_df ("Survey report" ++ nl ++ marker "2" ++ nl ++ "1. Good." ++ nl)
  = string_to_df (marker "2" ++ nl ++ "1. Good." ++ nl)
  /\ string_to_df ("Survey report" ++ nl ++ marker "2" ++ (nl ++ "1. Good." ++ nl)
                   ++ marker "7" ++ nl ++ "1. Another section.")
     = string_to_df (marker "2" ++ nl ++ "1. Good." ++ nl).
Proof.
  apply (string_to_df_first_section ("Survey report" ++ nl) "2"
           (nl ++ "1. Good." ++ nl) "7" (nl ++ "1. Another section."));
    solve [reflexivity | discriminate].
Defined.

(** A numbering without a period is removed together with the ". " behind
    it, whatever the comment holds after it; a line without a period is only
    stripped. *)
Theorem numbering_stripped (idx text line : string) :
  (free_of "." idx = true ->
   strip_numbering (idx ++ ". " ++ text) = strip text)
  /\ (free_of "." line = true -> strip_numbering line = strip line).
Proof.
  unfold strip_numbering, last_piece. split; intros F.
  - now rewrite split_at_numbering.
  - now rewrite split_without_period.
Qed.

Lemma numbering_stripped_witness :
  strip_numbering ("12" ++ ". " ++ "Fine. Really. ") = strip "Fine. Really. "
  /\ strip_numbering " no comment " = strip " no comment ".
Proof.
  split.
  - apply (proj1 (numbering_stripped "12" "Fine. Really. " "")). reflexivity.
  - apply (proj2 (numbering_stripped "" "" " no comment ")). reflexivity.
Defined.

(** The lines of the text [read_docx] builds are the paragraphs, followed by
    one empty line, when no paragraph holds a line break. *)
Theorem read_docx_lines (paragraphs : list string) :
  Forall (fun p => free_of "010" p = true) paragraphs ->
  re_split_char "010" (read_docx paragraphs) = (paragraphs ++ [""])%list.
Proof.
  induction 1 as [|p ps F _ IH]; [reflexivity|].
  rewrite read_docx_cons.
  change (p ++ nl ++ read_docx ps) with (p ++ String "010" (read_docx ps)).
  now rewrite re_split_char_app, IH.
Qed.

Lemma read_docx_lines_witness :
  re_split_char "010" (read_docx ["Comments: (1)"; "1. Good."])
  = ["Comments: (1)"; "1. Good."; ""].
Proof.
  apply (read_docx_lines ["Comments: (1)"; "1. Good."]).
  repeat constructor.
Defined.

(** A document one of whose paragraphs holds a section marker is converted:
    [docx_to_csv] raises nothing and writes a table with the one column
    [comment]. *)
Theorem docx_to_csv_converts (paragraphs : list string) (p x ds y : string) :
  In p paragraphs -> p = x ++ marker ds ++ y ->
  ds <> "" -> all_digits ds = true ->
  exists df, docx_to_csv paragraphs = Ok df /\ columns df = ["comment"].
Proof.
  intros Hin -> N D. apply in_split in Hin as (a & b & ->).
  assert (M : has_marker (read_docx (a ++ (x ++ marker ds ++ y) :: b))).
  { exists (read_docx a ++ x), ds, (y ++ nl ++ read_docx b).
    split; [|now split].
    rewrite read_docx_app, read_docx_cons. unfold marker.
    now rewrite !append_assoc. }
  apply marker_anywhere_has_marker in M.
  unfold docx_to_csv. rewrite (string_to_df_marker _ M).
  eexists. split; reflexivity.
Qed.

Lemma docx_to_csv_converts_witness :
  exists df,
    docx_to_csv ["Results"; "Comments: (2)"; "1. Good."; "2. nan"] = Ok df
    /\ columns df = ["comment"].
Proof.
  apply (docx_to_csv_converts
           ["Results"; "Comments: (2)"; "1. Good."; "2. nan"]
           "Comments: (2)" "" "2" "");
    [simpl; tauto | reflexivity | discriminate | reflexivity].
Defined.

(** The records of the table are, in the order of the candidate lines, what
    [nan_to_nocomment] makes of the stripped text behind the numbering of
    each line that is neither empty nor the distribution notice, the empty
    results left out: [df.replace] does what [nan_to_nocomment] does. *)
Theorem string_to_df_records (input : string) (df : DataFrame) :
  string_to_df input = Ok df ->
  records df
  = map CStr
        (filter (fun comment => negb (String.eqb comment ""))
                (map (fun line => nan_to_nocomment (strip_numbering line))
                     (filter (fun line => negb (String.eqb line "")
                                          && negb (String.eqb line notice))
                             (comment_list_raw input)))).
Proof.
  intros H. apply string_to_df_ok_inv in H. subst df.
  rewrite records_frame_of_list. unfold cleaned, comment_list_pre.
  now rewrite map_map.
Qed.

Lemma string_to_df_records_witness :
  records {| columns := ["comment"];
             rows := [[CStr "Great place to work."]; [CStr "No comment"]] |}
  = map CStr
        (filter (fun comment => negb (String.eqb comment ""))
                (map (fun line => nan_to_nocomment (strip_numbering line))
                     (filter (fun line => negb (String.eqb line "")
                                          && negb (String.eqb line notice))
                             (comment_list_raw scenario_text)))).
Proof. apply (string_to_df_records scenario_text). reflexivity. Defined.

End DocxToCsvProperties.

(** ** More on [utils.py] *)

Section UtilsProperties.

Import utils.

Local Open Scope nat_scope.

(** *** [break_into_sentences] *)

Lemma apply_str_not_string {B : Type} (f : string -> B) (series : list cell)
  (c : cell) :
  In c series -> (forall s, c <> CStr s) ->
  apply_str f series = Raise (TypeError "expected string or bytes-like object").
Proof.
  intros Hin Hc. induction series as [|x series IH]; [contradiction|].
  destruct Hin as [->|Hin].
  - destruct c as [s| |]; [now contradiction (Hc s)|reflexivity|reflexivity].
  - destruct x as [s| |]; simpl; try reflexivity. now rewrite (IH Hin).
Qed.

(** On a column of strings [break_into_sentences] raises nothing.  Its
    records are, comment after comment and in their order, the fragments
    between the periods other than those that are exactly one space, each
    stripped; so no record has whitespace at either end. *)
Theorem break_into_sentences_records (df : DataFrame) (strings : list string) :
  getitem df "comment" = Ok (map CStr strings) ->
  exists out,
    break_into_sentences df = Ok out
    /\ columns out = ["comment"%string]
    /\ records out
       = map (fun fragment => CStr (strip fragment))
             (filter (fun fragment => negb (String.eqb fragment " "))
                     (flat_map split_sentences_helper strings))
    /\ Forall (fun r => exists s, r = CStr s /\ strip s = s) (records out).
Proof.
  intros G. rewrite (break_into_sentences_strings df strings G).
  eexists. split; [reflexivity|]. split; [reflexivity|].
  rewrite records_frame_of_list. split; [reflexivity|].
  apply Forall_forall. intros r Hr.
  apply in_map_iff in Hr as (f & <- & _).
  exists (strip f). split; [reflexivity|apply strip_idempotent].
Qed.

Lemma break_into_sentences_records_witness :
  exists out,
    break_into_sentences
      {| columns := ["id"%string; "comment"%string];
         rows := [[CInt 1; CStr "Good pay. Long hours. "]; [CInt 2; CStr " "]] |}
    = Ok out
    /\ columns out = ["comment"%string]
    /\ records out
       = map (fun fragment => CStr (strip fragment))
             (filter (fun fragment => negb (String.eqb fragment " "))
                     (flat_map split_sentences_helper
                               ["Good pay. Long hours. "%string; " "%string]))
    /\ Forall (fun r => exists s, r = CStr s /\ strip s = s) (records out).
Proof.
  apply (break_into_sentences_records
           {| columns := ["id"%string; "comment"%string];
              rows := [[CInt 1; CStr "Good pay. Long hours. "];
                       [CInt 2; CStr " "]] |}
           ["Good pay. Long hours. "%string; " "%string]).
  reflexivity.
Defined.

(** [break_into_sentences] raises [KeyError] on a table without a [comment]
    column, and [TypeError] as soon as a cell of that column is no string: a
    missing value or a number. *)
Theorem break_into_sentences_raises (df : DataFrame) :
  (has_column "comment" df = false ->
   break_into_sentences df = Raise (KeyError "comment"))
  /\ (forall column c,
        getitem df "comment" = Ok column ->
        In c column -> (forall s, c <> CStr s) ->
        break_into_sentences df
        = Raise (TypeError "expected string or bytes-like object")).
Proof.
  split.
  - intros H. apply has_column_false in H.
    unfold break_into_sentences, getitem. now rewrite H.
  - intros column c G Hin Hc. unfold break_into_sentences. rewrite G.
    unfold bind at 1. now rewrite (apply_str_not_string _ column c Hin Hc).
Qed.

Lemma break_into_sentences_raises_witness :
  break_into_sentences table_without_comment = Raise (KeyError "comment")
  /\ break_into_sentences
       {| columns := ["comment"%string]; rows := [[CStr "Fine."]; [NaN]] |}
     = Raise (TypeError "expected string or bytes-like object").
Proof.
  split.
  - apply (proj1 (break_into_sentences_raises table_without_comment)).
    reflexivity.
  - apply (proj2 (break_into_sentences_raises
                    {| columns := ["comment"%string];
                       rows := [[CStr "Fine."]; [NaN]] |})
             [CStr "Fine."; NaN] NaN);
      [reflexivity | simpl; tauto | discriminate].
Defined.

(** Joining the sentences of a paragraph with periods gives the paragraph
    back, and no sentence holds a period; conversely the split of a join of
    sentences without periods gives these sentences. *)
Theorem split_sentences_round_trip (para : string) (sentences : list string) :
  String.concat "." (split_sentences_helper para) = para
  /\ Forall (fun s => free_of "." s = true) (split_sentences_helper para)
  /\ (sentences <> [] ->
      Forall (fun s => free_of "." s = true) sentences ->
      split_sentences_helper (String.concat "." sentences) = sentences).
Proof.
  unfold split_sentences_helper. split; [|split].
  - apply concat_re_split_char.
  - apply re_split_char_free.
  - apply re_split_char_concat.
Qed.

Lemma split_sentences_round_trip_witness :
  split_sentences_helper (String.concat "." ["Good pay"; " Long hours"; ""]%string)
  = ["Good pay"; " Long hours"; ""]%string.
Proof.
  apply (proj2 (proj2 (split_sentences_round_trip
                         "" ["Good pay"; " Long hours"; ""]%string))).
  - discriminate.
  - repeat constructor.
Defined.

(** *** [count_duplicates] *)





















(** *** [topic_aggregation] *)

(** On a table without a [topics] column [topic_aggregation] raises
    [KeyError]; so does a second export of a table it returned, which has no
    such column any more. *)
Theorem topic_aggregation_missing_topics (selected : list Z) (df : DataFrame) :
  (has_column "topics" df = false ->
   topic_aggregation selected df = Raise (KeyError "topics"))
  /\ (forall out selected',
        topic_aggregation selected df = Ok out ->
        topic_aggregation selected' out = Raise (KeyError "topics")).
Proof.
  assert (R : forall sel d, has_column "topics" d = false ->
                topic_aggregation sel d = Raise (KeyError "topics")).
  { intros sel d H. apply has_column_false in H.
    unfold topic_aggregation, getitem. now rewrite H. }
  split; [apply R|].
  intros out selected' H. apply R.
  destruct (has_column "topics" df) eqn:C.
  - rewrite (topic_aggregation_ok selected df C) in H. inversion H.
    apply has_column_dropped.
  - rewrite (R selected df C) in H. discriminate.
Qed.

Lemma topic_aggregation_missing_topics_witness :
  topic_aggregation [1]%Z table_abc = Raise (KeyError "topics")
  /\ topic_aggregation [1]%Z
       {| columns := ["comment"%string];
          rows := [[CStr "a"]; [CStr "c"]; [CStr "d"]] |}
     = Raise (KeyError "topics").
Proof.
  split.
  - apply (proj1 (topic_aggregation_missing_topics [1]%Z table_abc)).
    reflexivity.
  - apply (proj2 (topic_aggregation_missing_topics [1; 3]%Z labelled_table)).
    reflexivity.
Defined.

(** The selected ids count as a set: two lists with the same members give
    the same subset. *)
Theorem topic_aggregation_selection_set (selected selected' : list Z)
  (df : DataFrame) :
  (forall z, In z selected <-> In z selected') ->
  topic_aggregation selected df = topic_aggregation selected' df.
Proof.
  intros E. destruct (has_column "topics" df) eqn:C.
  - rewrite !(topic_aggregation_ok _ df C). do 3 f_equal.
    apply filter_ext. intros r. unfold topic_selected.
    destruct (row_get (columns df) r "topics") as [[s|z|]|]; try reflexivity.
    destruct (in_dec Z.eq_dec z selected) as [H|H],
             (in_dec Z.eq_dec z selected') as [H'|H']; try reflexivity;
      apply E in H || apply E in H'; contradiction.
  - apply has_column_false in C.
    unfold topic_aggregation, getitem. now rewrite C.
Qed.

Lemma topic_aggregation_selection_set_witness :
  topic_aggregation [1; 3]%Z labelled_table
  = topic_aggregation [3; 1; 3]%Z labelled_table.
Proof.
  apply (topic_aggregation_selection_set [1; 3]%Z [3; 1; 3]%Z labelled_table).
  intros z. simpl. tauto.
Defined.

End UtilsProperties.

(** ** More on [app.py] *)

Section AppProperties.

Import app.

Local Open Scope nat_scope.

(** The list [_update_file_options] returns is never empty, which the
    callers that take its first item rely on.  Each of its items is the
    placeholder or a listed name with the asked extension, and when a listed
    name has the extension the list is that of these names in the order of
    the listing. *)
Theorem update_file_options_never_empty (listing : result (list string))
  (type : string) :
  _update_file_options listing type <> []
  /\ Forall (fun f =>
               f = "No files found"%string
               \/ exists names,
                    listing = Ok names /\ In f names
                    /\ endswith f ("." ++ type)%string = true)
            (_update_file_options listing type)
  /\ Forall (fun names =>
               Exists (fun f => endswith f ("." ++ type)%string = true) names ->
               _update_file_options listing type
               = filter (fun f => endswith f ("." ++ type)%string) names)
            match listing with Ok names => [names] | Raise _ => [] end.
Proof.
  destruct listing as [names|e]; unfold _update_file_options; cbv zeta.
  - destruct (filter (fun f => endswith f ("." ++ type)%string) names)
      as [|f files] eqn:E.
    + split; [discriminate|]. split.
      * constructor; [now left|constructor].
      * constructor; [|constructor]. intros X.
        apply Exists_exists in X as (f & Hf & Ef).
        assert (In f []) as []. rewrite <- E. now apply filter_In.
    + split; [discriminate|]. split.
      * apply Forall_forall. intros g Hg. right. exists names.
        rewrite <- E in Hg. apply filter_In in Hg as [Hg Eg]. now repeat split.
      * constructor; [intros _; now rewrite E|constructor].
  - split; [discriminate|]. split; constructor; [now left|constructor].
Qed.

Lemma phase_ready_status (self : App) :
  phase_of self = Some Ready ->
  model_status_var self = "Model training done."%string.
Proof.
  unfold phase_of.
  destruct (String.eqb _ "Model not started"); [discriminate|].
  destruct (String.eqb _ "Model is training..."); [discriminate|].
  destruct (String.eqb_spec (model_status_var self) "Model training done.");
    [trivial|].
  destruct (String.eqb _ "Model training failed."); discriminate.
Qed.

(** Under the status of a finished training the views are enabled. *)
Lemma done_enabled (self : App) :
  reachable self ->
  model_status_var self = "Model training done."%string ->
  forall v, button v self = normal.
Proof.
  induction 1 as [|self R IH|t self R IH T]; intros S v.
  - simpl in S. discriminate.
  - simpl in S. discriminate.
  - destruct t; simpl in S; try discriminate. destruct v; reflexivity.
Qed.

(** An enabled view has a model and a labelled table behind it. *)
Lemma enabled_model (self : App) :
  reachable self ->
  forall v, button v self = normal ->
    exists m labelled, model self = Some m /\ df self = Some labelled.
Proof.
  induction 1 as [|self R IH|t self R IH T]; intros v B.
  - destruct v; discriminate.
  - apply (IH v). destruct v; exact B.
  - destruct t; try (destruct v; discriminate).
    now exists m, labelled.
Qed.

(** In a session whose phase is Ready the three views are enabled and a
    click on one calls into the model; a labelled table is held, so that the
    export of a list of ids does not fail for want of a table, and writes a
    subset when the table has a [topics] column. *)
Theorem ready_session_operations (self : App) :
  reachable self -> phase_of self = Some Ready ->
  exists m labelled,
    model self = Some m /\ df self = Some labelled
    /\ (forall v, button v self = normal /\ click v self = called v m)
    /\ (forall selected,
          _csv_subset (Some selected) self
          = match utils.topic_aggregation selected labelled with
            | Ok subset => saved subset
            | Raise e => raised e
            end).
Proof.
  intros R P. apply phase_ready_status in P.
  pose proof (done_enabled self R P) as B.
  destruct (enabled_model self R detailed_info (B detailed_info))
    as (m & labelled & Hm & Hd).
  exists m, labelled. repeat split; trivial.
  - unfold click, view_command. now rewrite B, Hm.
  - intros selected. unfold _csv_subset. now rewrite Hd.
Qed.

Lemma ready_session_operations_witness :
  exists m labelled,
    let self :=
      _start_model_training (fitted {| nr_topics := 3 |} labelled_table)
                            (_run_model init) in
    model self = Some m /\ df self = Some labelled
    /\ (forall v, button v self = normal /\ click v self = called v m)
    /\ (forall selected,
          _csv_subset (Some selected) self
          = match utils.topic_aggregation selected labelled with
            | Ok subset => saved subset
            | Raise e => raised e
            end).
Proof.
  apply (ready_session_operations
           (_start_model_training (fitted {| nr_topics := 3 |} labelled_table)
                                  (_run_model init))).
  - apply reach_training_end; [apply reach_run_model, reach_init|].
    simpl. lia.
  - reflexivity.
Defined.

(** In every state of a session a click on a view either does nothing, the
    button being disabled, or calls into the model of the session: the error
    box for a missing model is never shown.  This holds during a later
    training too, when the buttons are still enabled. *)
Theorem click_reaches_model (self : App) (v : view) :
  reachable self ->
  (button v self = disabled /\ click v self = not_invoked)
  \/ (exists m, button v self = normal /\ model self = Some m
                /\ click v self = called v m).
Proof.
  intros R. destruct (button v self) eqn:B.
  - right. destruct (enabled_model self R v B) as (m & labelled & Hm & _).
    exists m. unfold click, view_command. now rewrite B, Hm.
  - left. unfold click. now rewrite B.
Qed.

Lemma click_reaches_model_witness :
  (button hierarchy retraining_session = disabled
   /\ click hierarchy retraining_session = not_invoked)
  \/ (exists m, button hierarchy retraining_session = normal
                /\ model retraining_session = Some m
                /\ click hierarchy retraining_session = called hierarchy m).
Proof.
  apply (click_reaches_model retraining_session hierarchy).
  apply retraining_session_reachable.
Defined.

End AppProperties.
